(** * PDF Signer: a shallow embedding of the [App] component

    The component (App.jsx; the repository holds two copies of it with the
    same handlers) keeps four [useState] cells and one [useRef] to a drawing
    surface.  Three handlers act on them: [handleFileChange],
    [clearSignature] and [processPdf].

    The handlers call into pdf-lib, react-signature-canvas and the browser.
    The parts of those libraries that only transform opaque data (the PDF
    parser and serialiser, the PNG decoder, the canvas rasteriser, [fetch])
    are taken as an interface [Libs]; the parts whose behaviour the handlers
    rely on structurally (the page list of a document, [scale], [drawImage],
    the pad's emptiness flag, the blob URL store) are written out.  Further
    down, [processPdf] is also given segment by segment, as the [async]
    function it is, and with page operations that may throw ([Faults]). *)

From Stdlib Require Import PrimFloat.
From Stdlib Require FloatAxioms.
From stdpp Require Import base option list strings pretty.

Local Open Scope string_scope.
Local Open Scope list_scope.

(** ** JavaScript values *)

Abbreviation bytes := (list Byte.byte).

#[global] Instance byte_eq_dec : EqDecision Byte.byte := Byte.byte_eq_dec.

(** What a [throw] (or a rejected promise under [await]) carries. *)
Inductive JsError : Type :=
  | TypeError (msg : string)
  | LibraryError (msg : string).

Inductive result (A : Type) : Type :=
  | OK (a : A)
  | Throw (e : JsError).
Arguments OK {A} a.
Arguments Throw {A} e.

(** Truthiness, as used by [!pdfFile], [errorMsg && ...] and
    [signedPdfUrl && ...]: [null] and the empty string are falsy, an
    [ArrayBuffer] (even of length 0) and a non-empty string are truthy. *)
Definition truthy_string (s : string) : bool :=
  match s with
  | EmptyString => false
  | String _ _ => true
  end.

Definition truthy_nullable_string (v : option string) : bool :=
  match v with
  | None => false
  | Some s => truthy_string s
  end.

Definition truthy_buffer (v : option bytes) : bool :=
  match v with
  | None => false
  | Some _ => true
  end.

(** ** pdf-lib's object model, as far as [processPdf] touches it *)

Record PDFImage : Type := mkImage {
  img_width : float;          (* native pixel width of the raster *)
  img_height : float;         (* native pixel height of the raster *)
  img_png : bytes             (* the PNG it was embedded from *)
}.

Record Size : Type := mkSize {
  width : float;
  height : float
}.

(** [PDFImage.scale(factor)]: both native dimensions times [factor]. *)
Definition scale (image : PDFImage) (factor : float) : Size :=
  {| width := (img_width image * factor)%float;
     height := (img_height image * factor)%float |}.

(** The options object passed to [drawImage]. *)
Record DrawImageOptions : Type := mkOptions {
  opt_x : float;
  opt_y : float;
  opt_width : float;
  opt_height : float
}.

Record PDFPage : Type := mkPage {
  page_size : Size;
  page_content : bytes;                               (* what the file held *)
  page_drawn : list (PDFImage * DrawImageOptions)     (* images drawn since *)
}.

Record PDFDocument : Type := mkDocument {
  doc_pages : list PDFPage;
  doc_images : list PDFImage                          (* embedded resources *)
}.

(** A page object is shared between the array [getPages()] returns and the
    document: drawing on [pages[0]] changes the document that [save()] later
    serialises.  A page object is therefore an index into the document. *)
Definition PageRef : Type := nat.

Definition getPages (pdfDoc : PDFDocument) : list PageRef :=
  seq 0 (length (doc_pages pdfDoc)).

Definition getSize (pdfDoc : PDFDocument) (page : PageRef) : option Size :=
  page_size <$> doc_pages pdfDoc !! page.

Definition draw_on (image : PDFImage) (options : DrawImageOptions)
    (p : PDFPage) : PDFPage :=
  {| page_size := page_size p;
     page_content := page_content p;
     page_drawn := page_drawn p ++ [(image, options)] |}.

(** [page.drawImage(image, options)]: appends one draw operation to that
    page's content and to no other page. *)
Definition drawImage (pdfDoc : PDFDocument) (page : PageRef)
    (image : PDFImage) (options : DrawImageOptions) : PDFDocument :=
  {| doc_pages := alter (draw_on image options) page (doc_pages pdfDoc);
     doc_images := doc_images pdfDoc |}.

(** ** The drawing surface (react-signature-canvas over signature_pad) *)

Definition Point : Type := (float * float)%type.

Record SignaturePad : Type := mkPad {
  pad_data : list (list Point);   (* the strokes drawn so far *)
  pad_isEmpty : bool              (* signature_pad's [_isEmpty] flag *)
}.

(** [clear()]: wipes the canvas, drops the strokes and raises the flag. *)
Definition pad_clear (pad : SignaturePad) : SignaturePad :=
  {| pad_data := []; pad_isEmpty := true |}.

(** A pointer stroke on the pad lowers the flag. *)
Definition pad_stroke (stroke : list Point) (pad : SignaturePad) : SignaturePad :=
  {| pad_data := pad_data pad ++ [stroke]; pad_isEmpty := false |}.

(** ** Browser objects *)

Record File : Type := mkFile {
  name : string;
  type : string;       (* the MIME type the browser reports *)
  contents : bytes
}.

(** A [FileReader] after [readAsArrayBuffer(file)]: it remembers the file;
    its [onload] closure captured the same file. *)
Record FileReader : Type := mkReader {
  reader_file : File
}.

Record Blob : Type := mkBlob {
  blob_parts : bytes;
  blob_type : string
}.

(** ** The opaque library operations *)

Class Libs : Type := {
  (** [PDFDocument.load(bytes)] *)
  PDFDocument_load : bytes -> result PDFDocument;
  (** the PNG decoder behind [embedPng]: native width and height *)
  PNG_decode : bytes -> result (float * float);
  (** [pdfDoc.save()] *)
  PDFDocument_save : PDFDocument -> result bytes;
  (** [getTrimmedCanvas().toDataURL('image/png')] *)
  trimmed_toDataURL : SignaturePad -> result string;
  (** [fetch(url).then(res => res.arrayBuffer())] *)
  fetch_arrayBuffer : string -> result bytes
}.

(** ** Component state *)

(** The four [useState] cells. *)
Record AppState : Type := mkApp {
  pdfFile : option bytes;          (* [null] or the uploaded ArrayBuffer *)
  fileName : string;
  signedPdfUrl : option string;    (* [null] or an object URL *)
  errorMsg : string
}.

(** Calls that leave the component for the drawing surface, pdf-lib's codec
    and drawing operations, and the browser, in the order they are made. *)
Inductive Call : Type :=
  | call_readAsArrayBuffer (file : File)
  | call_clear
  | call_isEmpty
  | call_load (buffer : bytes)
  | call_toDataURL
  | call_fetch (url : string)
  | call_embedPng (png : bytes)
  | call_drawImage (page : PageRef) (image : PDFImage) (options : DrawImageOptions)
  | call_save (pdfDoc : PDFDocument)
  | call_createObjectURL (blob : Blob)
  | call_console_error (err : JsError).

Record World : Type := mkWorld {
  app : AppState;
  sigCanvas : SignaturePad;        (* [sigCanvas.current], once mounted *)
  readers : list FileReader;       (* reads started and not yet completed *)
  objectURLs : list Blob;          (* the browser's blob URL store *)
  calls : list Call
}.

Definition with_app (f : AppState -> AppState) (w : World) : World :=
  {| app := f (app w); sigCanvas := sigCanvas w; readers := readers w;
     objectURLs := objectURLs w; calls := calls w |}.

Definition with_sigCanvas (f : SignaturePad -> SignaturePad) (w : World) : World :=
  {| app := app w; sigCanvas := f (sigCanvas w); readers := readers w;
     objectURLs := objectURLs w; calls := calls w |}.

Definition with_readers (f : list FileReader -> list FileReader) (w : World) : World :=
  {| app := app w; sigCanvas := sigCanvas w; readers := f (readers w);
     objectURLs := objectURLs w; calls := calls w |}.

Definition with_objectURLs (f : list Blob -> list Blob) (w : World) : World :=
  {| app := app w; sigCanvas := sigCanvas w; readers := readers w;
     objectURLs := f (objectURLs w); calls := calls w |}.

Definition log (c : Call) (w : World) : World :=
  {| app := app w; sigCanvas := sigCanvas w; readers := readers w;
     objectURLs := objectURLs w; calls := calls w ++ [c] |}.

(** ** Handlers run in a state-and-exception monad over [World] *)

Definition M (A : Type) : Type := World -> result A * World.

Definition ret {A} (a : A) : M A := fun w => (OK a, w).

Definition bind {A B} (m : M A) (k : A -> M B) : M B :=
  fun w =>
    match m w with
    | (OK a, w') => k a w'
    | (Throw e, w') => (Throw e, w')
    end.

Definition throw {A} (e : JsError) : M A := fun w => (Throw e, w).

(** [try { body } catch (err) { handler(err) }] *)
Definition try_catch {A} (body : M A) (handler : JsError -> M A) : M A :=
  fun w =>
    match body w with
    | (OK a, w') => (OK a, w')
    | (Throw e, w') => handler e w'
    end.

Definition exec {A} (m : M A) (w : World) : World := snd (m w).

Declare Scope js_scope.
Delimit Scope js_scope with js.
Notation "x <- m ;; k" := (bind m (fun x => k))
  (at level 100, m at next level, right associativity) : js_scope.
Notation "m ;; k" := (bind m (fun _ => k))
  (at level 100, right associativity) : js_scope.
Local Open Scope js_scope.

(** An opaque library call: logged, then its outcome returned or thrown. *)
Definition external {A} (c : Call) (outcome : result A) : M A :=
  fun w => (outcome, log c w).

(** *** State setters and the state read *)

Definition setPdfFile (v : option bytes) : M unit := fun w =>
  (OK tt, with_app (fun a => {| pdfFile := v; fileName := fileName a;
      signedPdfUrl := signedPdfUrl a; errorMsg := errorMsg a |}) w).

Definition setFileName (v : string) : M unit := fun w =>
  (OK tt, with_app (fun a => {| pdfFile := pdfFile a; fileName := v;
      signedPdfUrl := signedPdfUrl a; errorMsg := errorMsg a |}) w).

Definition setSignedPdfUrl (v : option string) : M unit := fun w =>
  (OK tt, with_app (fun a => {| pdfFile := pdfFile a; fileName := fileName a;
      signedPdfUrl := v; errorMsg := errorMsg a |}) w).

Definition setErrorMsg (v : string) : M unit := fun w =>
  (OK tt, with_app (fun a => {| pdfFile := pdfFile a; fileName := fileName a;
      signedPdfUrl := signedPdfUrl a; errorMsg := v |}) w).

(** The value of [pdfFile] the handler's closure sees. *)
Definition read_pdfFile : M (option bytes) := fun w => (OK (pdfFile (app w)), w).

(** *** Browser and drawing-surface calls *)

Definition readAsArrayBuffer (file : File) : M unit := fun w =>
  (OK tt, log (call_readAsArrayBuffer file)
            (with_readers (fun rs => rs ++ [mkReader file]) w)).

Definition sigCanvas_clear : M unit := fun w =>
  (OK tt, log call_clear (with_sigCanvas pad_clear w)).

Definition sigCanvas_isEmpty : M bool := fun w =>
  (OK (pad_isEmpty (sigCanvas w)), log call_isEmpty w).

(** [URL.createObjectURL(blob)]: registers the blob and hands out a fresh
    [blob:] URL. *)
Definition createObjectURL (blob : Blob) : M string := fun w =>
  (OK ("blob:" +:+ pretty (length (objectURLs w))),
   log (call_createObjectURL blob) (with_objectURLs (fun bs => bs ++ [blob]) w)).

Definition console_error (err : JsError) : M unit := fun w =>
  (OK tt, log (call_console_error err) w).

(** Reading a property of [undefined] throws. *)
Definition defined {A} (what : string) (v : option A) : M A :=
  match v with
  | Some a => ret a
  | None => throw (TypeError ("Cannot read properties of undefined: " +:+ what))
  end.

(** ** The handlers *)

Section Handlers.
Context {libs : Libs}.

(** [pdfDoc.embedPng(bytes)]: decodes the PNG, registers the image with the
    document and returns it. *)
Definition embedPng (pdfDoc : PDFDocument) (png : bytes)
    : M (PDFImage * PDFDocument) :=
  dims <- external (call_embedPng png) (PNG_decode png) ;;
  let image := {| img_width := fst dims; img_height := snd dims; img_png := png |} in
  ret (image, {| doc_pages := doc_pages pdfDoc;
                 doc_images := doc_images pdfDoc ++ [image] |}).

(** [reader.onload], with [file] from the enclosing closure and [result]
    standing for [e.target.result]. *)
Definition reader_onload (file : File) (result : bytes) : M unit :=
  setPdfFile (Some result) ;;
  setFileName (name file) ;;
  setSignedPdfUrl None ;;
  setErrorMsg "".

(** [handleFileChange(e)], with [files] standing for [e.target.files]. *)
Definition handleFileChange (files : list File) : M unit :=
  let file := files !! 0 in
  match file with
  | Some file =>
      if String.eqb (type file) "application/pdf"
      then readAsArrayBuffer file
      else setErrorMsg "Please upload a valid PDF file."
  | None => setErrorMsg "Please upload a valid PDF file."
  end.

Definition clearSignature : M unit := sigCanvas_clear.

(** The body of the [try] block of [processPdf].  pdf-lib's page operations
    are taken here as written out above, where they do not throw;
    [continue_throwing] below lets them throw. *)
Definition compose (pdfFile : bytes) : M unit :=
  pdfDoc <- external (call_load pdfFile) (PDFDocument_load pdfFile) ;;
  pad <- (fun w => (OK (sigCanvas w), w)) ;;
  signatureDataUrl <- external call_toDataURL (trimmed_toDataURL pad) ;;
  signatureImageBytes <-
    external (call_fetch signatureDataUrl) (fetch_arrayBuffer signatureDataUrl) ;;
  embedded <- embedPng pdfDoc signatureImageBytes ;;
  let signatureImage := fst embedded in
  let pdfDoc := snd embedded in
  let pages := getPages pdfDoc in
  let firstPage := pages !! 0 in
  (* [firstPage.getSize()] throws when [pages] is empty *)
  firstPage <- defined "reading 'getSize'" firstPage ;;
  (* a page of [getPages()] always has a size; the second check never fires *)
  size <- defined "reading 'width'" (getSize pdfDoc firstPage) ;;
  let sigDims := scale signatureImage 0.5 in
  let options :=
    {| opt_x := (width size - width sigDims - 20)%float;
       opt_y := 20%float;
       opt_width := width sigDims;
       opt_height := height sigDims |} in
  pdfDoc <- external (call_drawImage firstPage signatureImage options)
              (OK (drawImage pdfDoc firstPage signatureImage options)) ;;
  pdfBytes <- external (call_save pdfDoc) (PDFDocument_save pdfDoc) ;;
  let blob := {| blob_parts := pdfBytes; blob_type := "application/pdf" |} in
  url <- createObjectURL blob ;;
  setSignedPdfUrl (Some url) ;;
  setErrorMsg "".

(** [processPdf()].  Its [await]s are run to completion within the one
    event: no other handler runs between the checks and the setters. *)
Definition processPdf : M unit :=
  pdfFile <- read_pdfFile ;;
  match pdfFile with
  | None => setErrorMsg "Please upload a PDF first."
  | Some pdfFile =>
      empty <- sigCanvas_isEmpty ;;
      if (empty : bool) then setErrorMsg "Please draw a signature first."
      else
        try_catch (compose pdfFile)
          (fun err =>
             console_error err ;;
             setErrorMsg "An error occurred while creating the PDF.")
  end.

End Handlers.

(** ** What the markup shows *)



(** [disabled={!pdfFile}] on the "Sign PDF" button. *)
Definition sign_disabled (a : AppState) : bool := negb (truthy_buffer (pdfFile a)).

(** ** Events *)

Inductive Event : Type :=
  | FileInputChange (files : list File)    (* [onChange] of the file input *)
  | FileReaderLoad (i : nat)               (* the i-th pending read completes *)
  | PointerStroke (stroke : list Point)    (* the user draws on the pad *)
  | ClickClear
  | ClickSignPdf.

Section EventLoop.
Context {libs : Libs}.

(** Completion of a pending read: the reader leaves the pending list and its
    [onload] runs with the file's full contents as [e.target.result]. *)
Definition fire_onload (i : nat) : M unit := fun w =>
  match readers w !! i with
  | Some reader =>
      reader_onload (reader_file reader) (contents (reader_file reader))
        (with_readers (delete i) w)
  | None => (OK tt, w)
  end.

Definition dispatch (ev : Event) : M unit :=
  match ev with
  | FileInputChange files => handleFileChange files
  | FileReaderLoad i => fire_onload i
  | PointerStroke stroke => fun w => (OK tt, with_sigCanvas (pad_stroke stroke) w)
  | ClickClear => clearSignature
  | ClickSignPdf => fun w =>
      if sign_disabled (app w) then (OK tt, w) else processPdf w
  end.

Definition run (events : list Event) (w : World) : World :=
  foldl (fun w ev => exec (dispatch ev) w) w events.

End EventLoop.

(** The component as first rendered. *)
Definition initial : World :=
  {| app := {| pdfFile := None; fileName := ""; signedPdfUrl := None; errorMsg := "" |};
     sigCanvas := {| pad_data := []; pad_isEmpty := true |};
     readers := [];
     objectURLs := [];
     calls := [] |}.

(** ** Deciding equality of documents

    Bit-for-bit equality of binary64 numbers is decided by the kernel's
    [Leibniz.eqb]; equality of the records built from them follows. *)

#[global] Instance float_eq_dec : EqDecision float.
Proof.
  intros x y. destruct (PrimFloat.Leibniz.eqb x y) eqn:Heq.
  - left. now apply FloatAxioms.Leibniz.eqb_spec.
  - right. intros Hxy. apply FloatAxioms.Leibniz.eqb_spec in Hxy. congruence.
Defined.

#[global] Instance Size_eq_dec : EqDecision Size.
Proof. solve_decision. Defined.

#[global] Instance PDFImage_eq_dec : EqDecision PDFImage.
Proof. solve_decision. Defined.

#[global] Instance DrawImageOptions_eq_dec : EqDecision DrawImageOptions.
Proof. solve_decision. Defined.

#[global] Instance PDFPage_eq_dec : EqDecision PDFPage.
Proof. solve_decision. Defined.

#[global] Instance PDFDocument_eq_dec : EqDecision PDFDocument.
Proof. solve_decision. Defined.

(** ** Test doubles for the library interface

    A table-driven stand-in for the codec, the rasteriser and [fetch]: a few
    byte strings it recognises, everything else is rejected. *)

Module Fake.

Definition letter_pdf : bytes := String.list_byte_of_string "%PDF-1.7 one page, 612x792".
Definition two_page_pdf : bytes := String.list_byte_of_string "%PDF-1.7 two pages, 612x792 and 595x842".
Definition narrow_pdf : bytes := String.list_byte_of_string "%PDF-1.7 one page, 100x100".
Definition no_page_pdf : bytes := String.list_byte_of_string "%PDF-1.7 /Count 0 /Kids []".
Definition signed_letter_pdf : bytes := String.list_byte_of_string "%PDF-1.7 one page, 612x792, one image".
Definition signed_two_page_pdf : bytes :=
  String.list_byte_of_string "%PDF-1.7 two pages, 612x792 with one image and 595x842".
Definition not_a_pdf : bytes := String.list_byte_of_string "GIF89a".
Definition signature_png : bytes := String.list_byte_of_string "PNG 300x120".
Definition signature_url : string := "data:image/png;base64,UE5HIDMwMHgxMjA=".

Definition blank (w h : float) : PDFPage :=
  {| page_size := {| width := w; height := h |}; page_content := []; page_drawn := [] |}.

Definition signature : PDFImage :=
  {| img_width := 300; img_height := 120; img_png := signature_png |}.

Definition signed_letter : PDFDocument :=
  {| doc_pages :=
       [ {| page_size := {| width := 612; height := 792 |};
            page_content := [];
            page_drawn :=
              [ (signature,
                 {| opt_x := 442; opt_y := 20; opt_width := 150; opt_height := 60 |}) ] |} ];
     doc_images := [signature] |}.

Definition signed_two_page : PDFDocument :=
  {| doc_pages := doc_pages signed_letter ++ [blank 595 842];
     doc_images := [signature] |}.

Definition load (buffer : bytes) : result PDFDocument :=
  if decide (buffer = letter_pdf) then
    OK {| doc_pages := [blank 612 792]; doc_images := [] |}
  else if decide (buffer = two_page_pdf) then
    OK {| doc_pages := [blank 612 792; blank 595 842]; doc_images := [] |}
  else if decide (buffer = narrow_pdf) then
    OK {| doc_pages := [blank 100 100]; doc_images := [] |}
  else if decide (buffer = no_page_pdf) then
    OK {| doc_pages := []; doc_images := [] |}
  else if decide (buffer = signed_letter_pdf) then
    OK signed_letter
  else if decide (buffer = signed_two_page_pdf) then
    OK signed_two_page
  else Throw (LibraryError "Failed to parse PDF document").

Definition decode (png : bytes) : result (float * float) :=
  if decide (png = signature_png) then OK (300%float, 120%float)
  else Throw (LibraryError "The input is not a PNG file!").

(** Serialises documents of one or two pages only. *)
Definition save (pdfDoc : PDFDocument) : result bytes :=
  match doc_pages pdfDoc with
  | [_] => OK signed_letter_pdf
  | [_; _] => OK signed_two_page_pdf
  | _ => Throw (LibraryError "serialisation failed")
  end.

Definition toDataURL (pad : SignaturePad) : result string := OK signature_url.

Definition fetch (url : string) : result bytes :=
  if decide (url = signature_url) then OK signature_png
  else Throw (TypeError "Failed to fetch").

Definition libs : Libs :=
  {| PDFDocument_load := load;
     PNG_decode := decode;
     PDFDocument_save := save;
     trimmed_toDataURL := toDataURL;
     fetch_arrayBuffer := fetch |}.



Definition contract : File :=
  {| name := "contract.pdf"; type := "application/pdf"; contents := letter_pdf |}.

Definition photo : File :=
  {| name := "photo.png"; type := "image/png"; contents := signature_png |}.

Definition stroke : list Point := [(10%float, 10%float); (40%float, 25%float)].

(** A document is loaded and a signature drawn. *)
Definition ready (buffer : bytes) : World :=
  {| app := {| pdfFile := Some buffer; fileName := "contract.pdf";
               signedPdfUrl := None; errorMsg := "" |};
     sigCanvas := {| pad_data := [stroke]; pad_isEmpty := false |};
     readers := [];
     objectURLs := [];
     calls := [] |}.

(** The same with nothing drawn yet. *)
Definition unsigned (buffer : bytes) : World :=
  {| app := {| pdfFile := Some buffer; fileName := "contract.pdf";
               signedPdfUrl := None; errorMsg := "" |};
     sigCanvas := {| pad_data := []; pad_isEmpty := true |};
     readers := [];
     objectURLs := [];
     calls := [] |}.

(** Upload, draw, sign: a download handle is on offer. *)
Definition signed : World :=
  run (libs := libs)
    [FileInputChange [contract]; FileReaderLoad 0; PointerStroke stroke; ClickSignPdf]
    initial.

(** A second PDF file, of two pages. *)
Definition annex : File :=
  {| name := "annex.pdf"; type := "application/pdf"; contents := two_page_pdf |}.

(** A document is loaded, a signature drawn, and an earlier attempt has left
    its message on display. *)
Definition rejected_before : World :=
  {| app := {| pdfFile := Some letter_pdf; fileName := "contract.pdf";
               signedPdfUrl := None;
               errorMsg := "Please draw a signature first." |};
     sigCanvas := {| pad_data := [stroke]; pad_isEmpty := false |};
     readers := [];
     objectURLs := [];
     calls := [] |}.


End Fake.

(** * Properties *)

(** ** Specification-side descriptions of the signing step *)

(** Placement as the specification words it: the raster's native dimensions
    scaled by the constant 0.5, anchored 20 units from the right and bottom
    edges of a page of width [W]. *)
Definition bottom_right (W : float) (image : PDFImage) : DrawImageOptions :=
  {| opt_x := (W - img_width image * 0.5 - 20)%float;
     opt_y := 20%float;
     opt_width := (img_width image * 0.5)%float;
     opt_height := (img_height image * 0.5)%float |}.

(** The signed document as the specification words it: the image registered
    as a resource, drawn once on the first page, every other page as parsed. *)
Definition signed_document (doc : PDFDocument) (image : PDFImage)
    (first : PDFPage) (others : list PDFPage) : PDFDocument :=
  {| doc_pages := draw_on image (bottom_right (width (page_size first)) image) first :: others;
     doc_images := doc_images doc ++ [image] |}.

(** The blob that [processPdf] wraps around the serialised bytes. *)
Definition pdf_blob (out : bytes) : Blob :=
  {| blob_parts := out; blob_type := "application/pdf" |}.


(** The codec operations (parse, embed, draw, serialise) among a list of calls. *)
Definition is_composition_call (c : Call) : bool :=
  match c with
  | call_load _ | call_toDataURL | call_fetch _ | call_embedPng _
  | call_drawImage _ _ _ | call_save _ | call_createObjectURL _ => true
  | _ => false
  end.

Definition set_errorMsg (v : string) (a : AppState) : AppState :=
  {| pdfFile := pdfFile a; fileName := fileName a;
     signedPdfUrl := signedPdfUrl a; errorMsg := v |}.

(** ** The dynamic parts of the markup [App] returns *)

Record View : Type := mkView {
  error_banner : option string;               (* text of the red box *)
  selected_label : option string;             (* text under the file input *)
  sign_button_disabled : bool;
  download_link : option (string * string)    (* [href] and [download] *)
}.

Definition render (a : AppState) : View :=
  {| error_banner :=
       if truthy_string (errorMsg a) then Some (errorMsg a) else None;
     selected_label :=
       if truthy_string (fileName a) then Some ("Selected: " +:+ fileName a) else None;
     sign_button_disabled := negb (truthy_buffer (pdfFile a));
     download_link :=
       if truthy_nullable_string (signedPdfUrl a)
       then (fun url => (url, "signed_" +:+ fileName a)) <$> signedPdfUrl a
       else None |}.

(** The messages the handlers can leave in [errorMsg] once the "Sign PDF"
    button is only clickable with a document loaded. *)
Definition shown_messages : list string :=
  [ ""; "Please upload a valid PDF file."; "Please draw a signature first.";
    "An error occurred while creating the PDF." ].

(** The URL [createObjectURL] hands out for the [i]-th registered blob. *)
Definition object_url (i : nat) : string := "blob:" +:+ pretty i.


(** The file a change event puts before [handleFileChange]: [files[0]]. *)
Definition chosen (ev : Event) : list File :=
  match ev with
  | FileInputChange (file :: _) => [file]
  | _ => []
  end.

(** The files the user has put before [handleFileChange], in order. *)
Definition selected (events : list Event) : list File := events ≫= chosen.

Section Consistency.
Context {libs : Libs}.

(** [out] is what the serialiser returned for the document parsed from [D]
    with one decoded raster drawn on its first page. *)
Definition signs_to (D out : bytes) : Prop :=
  exists (doc : PDFDocument) (png : bytes) (dims : float * float)
         (first : PDFPage) (others : list PDFPage),
    PDFDocument_load D = OK doc
    /\ PNG_decode png = OK dims
    /\ doc_pages doc = first :: others
    /\ PDFDocument_save
         (signed_document doc
            {| img_width := dims.1; img_height := dims.2; img_png := png |}
            first others) = OK out.

(** What holds of the state cells, the pending reads and the blob store in
    every state the event loop reaches from [initial], where [sel] are the
    files selected on the way. *)
Definition consistent (sel : list File)
    (a : AppState) (rs : list FileReader) (store : list Blob) : Prop :=
  Forall (fun r => reader_file r ∈ sel /\ type (reader_file r) = "application/pdf") rs
  /\ (forall D, pdfFile a = Some D ->
        exists file : File,
          file ∈ sel /\ type file = "application/pdf"
          /\ contents file = D /\ name file = fileName a)
  /\ (pdfFile a = None -> fileName a = "" /\ signedPdfUrl a = None)
  /\ (forall url, signedPdfUrl a = Some url ->
        exists (i : nat) (D out : bytes),
          url = object_url i /\ store !! i = Some (pdf_blob out)
          /\ pdfFile a = Some D /\ signs_to D out)
  /\ errorMsg a ∈ shown_messages.

Definition Consistent (sel : list File) (w : World) : Prop :=
  consistent sel (app w) (readers w) (objectURLs w).

End Consistency.

(** ** [processPdf] between its [await]s

    [processPdf] is an [async] function: at each [await] it returns to the
    event loop, and other handlers may run before it is resumed.  [processPdf]
    above runs all its segments back to back; here they are separate. *)

(** Where a suspended call of [processPdf] waits, with its live locals. *)
Inductive Task : Type :=
  | AwaitLoad (pdfFile : bytes)                                  (* [PDFDocument.load] *)
  | AwaitFetch (pdfDoc : PDFDocument) (signatureDataUrl : string) (* [fetch ... arrayBuffer] *)
  | AwaitEmbed (pdfDoc : PDFDocument) (signatureImageBytes : bytes) (* [embedPng] *)
  | AwaitSave (pdfDoc : PDFDocument).                            (* [save] *)

Inductive Progress : Type :=
  | Suspended (task : Task)
  | Finished.

(** The call behind an [await] is made, and the function suspends. *)
Definition suspend (c : Call) (task : Task) : M Progress :=
  fun w => (OK (Suspended task), log c w).

(** The awaited promise settles: its value is returned or its reason thrown. *)
Definition awaited {A} (outcome : result A) : M A := fun w => (outcome, w).

Section Segments.
Context {libs : Libs}.

(** From the click to the first [await]. *)
Definition processPdf_begin : M Progress :=
  pdfFile <- read_pdfFile ;;
  match pdfFile with
  | None => setErrorMsg "Please upload a PDF first." ;; ret Finished
  | Some pdfFile =>
      empty <- sigCanvas_isEmpty ;;
      if (empty : bool)
      then setErrorMsg "Please draw a signature first." ;; ret Finished
      else suspend (call_load pdfFile) (AwaitLoad pdfFile)
  end.

(** The part of the [try] body from one [await] to the next. *)
Definition continue (task : Task) : M Progress :=
  match task with
  | AwaitLoad pdfFile =>
      pdfDoc <- awaited (PDFDocument_load pdfFile) ;;
      pad <- (fun w => (OK (sigCanvas w), w)) ;;
      signatureDataUrl <- external call_toDataURL (trimmed_toDataURL pad) ;;
      suspend (call_fetch signatureDataUrl) (AwaitFetch pdfDoc signatureDataUrl)
  | AwaitFetch pdfDoc signatureDataUrl =>
      signatureImageBytes <- awaited (fetch_arrayBuffer signatureDataUrl) ;;
      suspend (call_embedPng signatureImageBytes) (AwaitEmbed pdfDoc signatureImageBytes)
  | AwaitEmbed pdfDoc signatureImageBytes =>
      dims <- awaited (PNG_decode signatureImageBytes) ;;
      let signatureImage :=
        {| img_width := fst dims; img_height := snd dims;
           img_png := signatureImageBytes |} in
      let pdfDoc := {| doc_pages := doc_pages pdfDoc;
                       doc_images := doc_images pdfDoc ++ [signatureImage] |} in
      let pages := getPages pdfDoc in
      let firstPage := pages !! 0 in
      firstPage <- defined "reading 'getSize'" firstPage ;;
      size <- defined "reading 'width'" (getSize pdfDoc firstPage) ;;
      let sigDims := scale signatureImage 0.5 in
      let options :=
        {| opt_x := (width size - width sigDims - 20)%float;
           opt_y := 20%float;
           opt_width := width sigDims;
           opt_height := height sigDims |} in
      pdfDoc <- external (call_drawImage firstPage signatureImage options)
                  (OK (drawImage pdfDoc firstPage signatureImage options)) ;;
      suspend (call_save pdfDoc) (AwaitSave pdfDoc)
  | AwaitSave pdfDoc =>
      pdfBytes <- awaited (PDFDocument_save pdfDoc) ;;
      let blob := {| blob_parts := pdfBytes; blob_type := "application/pdf" |} in
      url <- createObjectURL blob ;;
      setSignedPdfUrl (Some url) ;;
      setErrorMsg "" ;;
      ret Finished
  end.

(** Resuming inside the [try]: what is thrown lands in the [catch]. *)
Definition processPdf_resume (task : Task) : M Progress :=
  try_catch (continue task)
    (fun err =>
       console_error err ;;
       setErrorMsg "An error occurred while creating the PDF." ;;
       ret Finished).

End Segments.

(** ** pdf-lib's page operations may throw

    [getPages()], [getSize()] and [drawImage()] are inside the [try] and can
    throw on documents that [PDFDocument.load] accepts (a damaged page tree,
    a page without a media box).  Whether they do is a matter of the
    library; when they do not, they behave as written out above. *)

Class Faults : Type := {
  getPages_throws : PDFDocument -> option JsError;
  getSize_throws : PDFDocument -> PageRef -> option JsError;
  drawImage_throws :
    PDFDocument -> PageRef -> PDFImage -> DrawImageOptions -> option JsError;
  (** what the engine throws for [firstPage.getSize()] on [undefined] *)
  undefined_getSize : JsError
}.

Definition unless {A} (fault : option JsError) (value : A) : result A :=
  match fault with
  | Some e => Throw e
  | None => OK value
  end.

(** The page operations never throw. *)
Definition no_faults : Faults :=
  {| getPages_throws := fun _ => None;
     getSize_throws := fun _ _ => None;
     drawImage_throws := fun _ _ _ _ => None;
     undefined_getSize :=
       TypeError "Cannot read properties of undefined: reading 'getSize'" |}.

(** The image [embedPng] makes of a decoded PNG, and the document with that
    image registered. *)
Definition raster (png : bytes) (dims : float * float) : PDFImage :=
  {| img_width := dims.1; img_height := dims.2; img_png := png |}.

Definition registered (doc : PDFDocument) (image : PDFImage) : PDFDocument :=
  {| doc_pages := doc_pages doc; doc_images := doc_images doc ++ [image] |}.

Section Attempt.
Context {libs : Libs} {faults : Faults}.

(** The part of the [try] body from one [await] to the next, with page
    operations that may throw.  Only the segment after [embedPng] has any. *)
Definition continue_throwing (task : Task) : M Progress :=
  match task with
  | AwaitEmbed pdfDoc signatureImageBytes =>
      dims <- awaited (PNG_decode signatureImageBytes) ;;
      let signatureImage :=
        {| img_width := fst dims; img_height := snd dims;
           img_png := signatureImageBytes |} in
      let pdfDoc := {| doc_pages := doc_pages pdfDoc;
                       doc_images := doc_images pdfDoc ++ [signatureImage] |} in
      pages <- awaited (unless (getPages_throws pdfDoc) (getPages pdfDoc)) ;;
      let firstPage := pages !! 0 in
      firstPage <- match firstPage with
                   | Some page => ret page
                   | None => throw undefined_getSize
                   end ;;
      size <- awaited (match getSize_throws pdfDoc firstPage with
                       | Some e => Throw e
                       | None =>
                           match getSize pdfDoc firstPage with
                           | Some size => OK size
                           | None => Throw undefined_getSize
                           end
                       end) ;;
      let sigDims := scale signatureImage 0.5 in
      let options :=
        {| opt_x := (width size - width sigDims - 20)%float;
           opt_y := 20%float;
           opt_width := width sigDims;
           opt_height := height sigDims |} in
      pdfDoc <- external (call_drawImage firstPage signatureImage options)
                  (unless (drawImage_throws pdfDoc firstPage signatureImage options)
                     (drawImage pdfDoc firstPage signatureImage options)) ;;
      suspend (call_save pdfDoc) (AwaitSave pdfDoc)
  | _ => continue task
  end.

Definition processPdf_resume_throwing (task : Task) : M Progress :=
  try_catch (continue_throwing task)
    (fun err =>
       console_error err ;;
       setErrorMsg "An error occurred while creating the PDF." ;;
       ret Finished).

(** The steps at which a resumed segment can fail, and what is then
    thrown; [pad] is the drawing surface when the segment runs. *)
Inductive SegmentFails : Task -> SignaturePad -> JsError -> Prop :=
  | parse_fails D pad e :
      PDFDocument_load D = Throw e ->
      SegmentFails (AwaitLoad D) pad e
  | export_fails D pad doc e :
      PDFDocument_load D = OK doc ->
      trimmed_toDataURL pad = Throw e ->
      SegmentFails (AwaitLoad D) pad e
  | fetch_fails doc url pad e :
      fetch_arrayBuffer url = Throw e ->
      SegmentFails (AwaitFetch doc url) pad e
  | embed_fails doc png pad e :
      PNG_decode png = Throw e ->
      SegmentFails (AwaitEmbed doc png) pad e
  | page_list_fails doc png pad dims e :
      PNG_decode png = OK dims ->
      getPages_throws (registered doc (raster png dims)) = Some e ->
      SegmentFails (AwaitEmbed doc png) pad e
  | first_page_missing doc png pad dims :
      PNG_decode png = OK dims ->
      getPages_throws (registered doc (raster png dims)) = None ->
      doc_pages doc = [] ->
      SegmentFails (AwaitEmbed doc png) pad undefined_getSize
  | page_size_fails doc png pad dims first others e :
      PNG_decode png = OK dims ->
      getPages_throws (registered doc (raster png dims)) = None ->
      doc_pages doc = first :: others ->
      getSize_throws (registered doc (raster png dims)) 0 = Some e ->
      SegmentFails (AwaitEmbed doc png) pad e
  | draw_fails doc png pad dims first others e :
      PNG_decode png = OK dims ->
      getPages_throws (registered doc (raster png dims)) = None ->
      doc_pages doc = first :: others ->
      getSize_throws (registered doc (raster png dims)) 0 = None ->
      drawImage_throws (registered doc (raster png dims)) 0 (raster png dims)
        (bottom_right (width (page_size first)) (raster png dims)) = Some e ->
      SegmentFails (AwaitEmbed doc png) pad e
  | serialize_fails signed pad e :
      PDFDocument_save signed = Throw e ->
      SegmentFails (AwaitSave signed) pad e.

End Attempt.

(** The component together with the calls of [processPdf] in flight. *)
Record Session : Type := mkSession {
  world : World;
  signing : list Task
}.

Inductive Turn : Type :=
  | Handle (ev : Event)     (* an event of the page is handled *)
  | Resume (i : nat).       (* the i-th suspended [processPdf] is resumed *)

Section Interleaving.
Context {libs : Libs}.

Definition settle (i : nat) (s : Session) (outcome : result Progress * World) : Session :=
  match outcome with
  | (OK (Suspended task), w) => {| world := w; signing := <[i := task]> (signing s) |}
  | (_, w) => {| world := w; signing := delete i (signing s) |}
  end.

Definition turn (t : Turn) (s : Session) : Session :=
  match t with
  | Handle ClickSignPdf =>
      if sign_disabled (app (world s)) then s
      else
        match processPdf_begin (world s) with
        | (OK (Suspended task), w) => {| world := w; signing := signing s ++ [task] |}
        | (_, w) => {| world := w; signing := signing s |}
        end
  | Handle ev => {| world := exec (dispatch ev) (world s); signing := signing s |}
  | Resume i =>
      match signing s !! i with
      | Some task => settle i s (processPdf_resume task (world s))
      | None => s
      end
  end.

Definition interleave (turns : list Turn) (s : Session) : Session :=
  foldl (fun s t => turn t s) s turns.

(** The file a turn puts before [handleFileChange], if any. *)
Definition chosen_in (t : Turn) : list File :=
  match t with
  | Handle ev => chosen ev
  | Resume _ => []
  end.

(** The files the user has put before [handleFileChange], in order. *)
Definition selections (turns : list Turn) : list File := turns ≫= chosen_in.

(** The bytes [D] are the contents of one of the selected files [sel], one
    that passed the check of [handleFileChange]. *)
Definition from_pdf_file (sel : list File) (D : bytes) : Prop :=
  exists file : File,
    file ∈ sel /\ type file = "application/pdf" /\ contents file = D.

(** What a suspended call holds. *)
Definition task_sound (sel : list File) (task : Task) : Prop :=
  match task with
  | AwaitLoad D => from_pdf_file sel D
  | AwaitFetch doc _ | AwaitEmbed doc _ =>
      exists D : bytes, from_pdf_file sel D /\ PDFDocument_load D = OK doc
  | AwaitSave signed =>
      exists (D : bytes) (doc : PDFDocument) (png : bytes) (dims : float * float)
             (first : PDFPage) (others : list PDFPage),
        from_pdf_file sel D
        /\ PDFDocument_load D = OK doc
        /\ PNG_decode png = OK dims
        /\ doc_pages doc = first :: others
        /\ signed = signed_document doc
                      {| img_width := dims.1; img_height := dims.2; img_png := png |}
                      first others
  end.

(** What holds of a session in every interleaving, where [sel] are the
    files selected on the way. *)
Definition sound (sel : list File) (s : Session) : Prop :=
  let a := app (world s) in
  Forall (fun r => reader_file r ∈ sel /\ type (reader_file r) = "application/pdf")
    (readers (world s))
  /\ (forall D, pdfFile a = Some D ->
        exists file : File,
          file ∈ sel /\ type file = "application/pdf"
          /\ contents file = D /\ name file = fileName a)
  /\ (pdfFile a = None ->
        fileName a = "" /\ signedPdfUrl a = None /\ signing s = [])
  /\ (forall url, signedPdfUrl a = Some url ->
        exists (i : nat) (D out : bytes),
          url = object_url i /\ objectURLs (world s) !! i = Some (pdf_blob out)
          /\ from_pdf_file sel D /\ signs_to D out)
  /\ errorMsg a ∈ shown_messages
  /\ Forall (task_sound sel) (signing s).

End Interleaving.

(** The session of the first render. *)
Definition opening : Session := {| world := initial; signing := [] |}.

(** Test doubles for the page operations: a library in which every page
    lacks a media box, and one whose [drawImage] rejects every call. *)
Definition no_media_box : Faults :=
  {| getPages_throws := fun _ => None;
     getSize_throws := fun _ _ => Some (LibraryError "Missing MediaBox");
     drawImage_throws := fun _ _ _ _ => None;
     undefined_getSize :=
       TypeError "Cannot read properties of undefined (reading 'getSize')" |}.

Definition draw_rejected : Faults :=
  {| getPages_throws := fun _ => None;
     getSize_throws := fun _ _ => None;
     drawImage_throws := fun _ _ _ _ => Some (LibraryError "drawImage failed");
     undefined_getSize :=
       TypeError "Cannot read properties of undefined (reading 'getSize')" |}.

Section Properties.
Context {libs : Libs}.

Ltac run_handler :=
  unfold exec, processPdf, handleFileChange, clearSignature, fire_onload,
    reader_onload, try_catch, bind, ret, throw, read_pdfFile, sigCanvas_isEmpty,
    sigCanvas_clear, readAsArrayBuffer, console_error, setErrorMsg,
    setSignedPdfUrl, setFileName, setPdfFile, external; simpl.

(** ** File selection *)

Lemma eqb_pdf_false (t : string) :
  t <> "application/pdf" -> String.eqb t "application/pdf" = false.
Proof. intros Hne. now apply String.eqb_neq. Qed.

(** C5: selecting a file whose MIME type is exactly "application/pdf" starts
    a read and changes no state yet; when that read completes, in whatever
    state the component then is, the document bytes and filename become the
    new file's, the SignedResult becomes empty and the ErrorState is
    cleared. *)
Theorem select_valid_replaces_document (w : World) (file : File) (more : list File)
    (Hpdf : type file = "application/pdf") :
  exec (handleFileChange (file :: more)) w
    = log (call_readAsArrayBuffer file) (with_readers (fun rs => rs ++ [mkReader file]) w)
  /\ forall (w' : World) (i : nat),
       readers w' !! i = Some (mkReader file) ->
       app (exec (fire_onload i) w')
         = {| pdfFile := Some (contents file); fileName := name file;
              signedPdfUrl := None; errorMsg := "" |}.
Proof.
  split.
  - run_handler. rewrite Hpdf. reflexivity.
  - intros w' i Hi. run_handler. rewrite Hi. reflexivity.
Qed.

(** C6: selecting a file whose MIME type is not "application/pdf" leaves the
    stored document bytes and filename as they were and sets the ErrorState
    to "Please upload a valid PDF file.". *)
Theorem select_invalid_keeps_document (w : World) (file : File) (more : list File)
    (Hnot : type file <> "application/pdf") :
  let w' := exec (handleFileChange (file :: more)) w in
  pdfFile (app w') = pdfFile (app w)
  /\ fileName (app w') = fileName (app w)
  /\ errorMsg (app w') = "Please upload a valid PDF file.".
Proof.
  run_handler. rewrite (eqb_pdf_false _ Hnot). simpl. auto.
Qed.


(** C9: a change event with no file at all ([e.target.files[0]] undefined)
    takes the invalid branch: the ErrorState becomes "Please upload a valid
    PDF file." and nothing else changes. *)
Theorem select_nothing_reports_invalid (w : World) :
  exec (handleFileChange []) w
    = with_app (set_errorMsg "Please upload a valid PDF file.") w.
Proof. reflexivity. Qed.

(** ** The drawing surface *)

(** C10: after one [clearSignature()] the surface reports empty, and after a
    second one it still does; the second call changes nothing on the
    surface. *)
Theorem clearSignature_twice_empty (w : World) :
  let w1 := exec clearSignature w in
  let w2 := exec clearSignature w1 in
  fst (sigCanvas_isEmpty w1) = OK true
  /\ fst (sigCanvas_isEmpty w2) = OK true
  /\ sigCanvas w2 = sigCanvas w1.
Proof. repeat split. Qed.

(** ** Signing *)

(** Every page object that [getPages()] hands out has a size. *)
Lemma getSize_of_getPages (pdfDoc : PDFDocument) (page : PageRef) :
  page ∈ getPages pdfDoc -> is_Some (getSize pdfDoc page).
Proof.
  unfold getPages, getSize. rewrite elem_of_seq. intros [_ Hlt].
  rewrite fmap_is_Some. apply lookup_lt_is_Some. exact Hlt.
Qed.

Ltac run_compose :=
  unfold compose, embedPng, createObjectURL, defined; run_handler.

Ltac split_on_outcomes :=
  repeat match goal with
    | |- context [match ?x with _ => _ end] => destruct x eqn:?; simpl
    | H : context [match ?x with _ => _ end] |- _ => destruct x eqn:?; simpl in H
    end.

(** A [try] body that throws has not written any state cell, touched the
    pad or registered a blob: the setters and [createObjectURL] come after
    the last step that can fail. *)
Lemma compose_throws_keeps (D : bytes) (w w' : World) (e : JsError) :
  compose D w = (Throw e, w') ->
  app w' = app w /\ sigCanvas w' = sigCanvas w
  /\ objectURLs w' = objectURLs w /\ readers w' = readers w.
Proof.
  run_compose. intros Hrun. split_on_outcomes; simplify_eq/=; auto.
Qed.

(** A [try] body that completes has stored a fresh blob URL and cleared the
    message, and written no other cell. *)
Lemma compose_returns_sets (D : bytes) (w w' : World) (u : unit) :
  compose D w = (OK u, w') ->
  app w' = {| pdfFile := pdfFile (app w); fileName := fileName (app w);
              signedPdfUrl := Some ("blob:" +:+ pretty (length (objectURLs w)));
              errorMsg := "" |}.
Proof.
  run_compose. intros Hrun. split_on_outcomes; simplify_eq/=; auto.
Qed.

(** C4: with a document loaded and the drawing surface reporting empty,
    [processPdf] sets the ErrorState to "Please draw a signature first." and
    returns: the only call it makes is [isEmpty()], so no parse, embed, draw
    or serialise operation runs, and no other state changes. *)
Theorem processPdf_rejects_empty_signature (w : World) (D : bytes)
    (Hdoc : pdfFile (app w) = Some D)
    (Hempty : pad_isEmpty (sigCanvas w) = true) :
  processPdf w
    = (OK tt, log call_isEmpty (with_app (set_errorMsg "Please draw a signature first.") w))
  /\ filter is_composition_call (calls (exec processPdf w))
       = filter is_composition_call (calls w).
Proof.
  run_handler. rewrite Hdoc. simpl. rewrite Hempty. simpl. split.
  - reflexivity.
  - rewrite filter_app. simpl. apply app_nil_r.
Qed.


(** The [try] body up to and including [save()], when every step before
    [save()] goes through: the document handed to the serialiser is the
    specification's [signed_document]. *)
Lemma compose_reaches_save (D : bytes) (w : World) (doc : PDFDocument)
    (url : string) (png : bytes) (dims : float * float)
    (first : PDFPage) (others : list PDFPage) :
  PDFDocument_load D = OK doc ->
  trimmed_toDataURL (sigCanvas w) = OK url ->
  fetch_arrayBuffer url = OK png ->
  PNG_decode png = OK dims ->
  doc_pages doc = first :: others ->
  let image := {| img_width := dims.1; img_height := dims.2; img_png := png |} in
  let signed := signed_document doc image first others in
  let w1 :=
    log (call_save signed)
      (log (call_drawImage 0 image (bottom_right (width (page_size first)) image))
         (log (call_embedPng png)
            (log (call_fetch url) (log call_toDataURL (log (call_load D) w))))) in
  compose D w
    = match PDFDocument_save signed with
      | OK out =>
          (OK tt,
           with_app (fun a =>
               {| pdfFile := pdfFile a; fileName := fileName a;
                  signedPdfUrl := Some ("blob:" +:+ pretty (length (objectURLs w)));
                  errorMsg := "" |})
             (log (call_createObjectURL (pdf_blob out))
                (with_objectURLs (fun bs => bs ++ [pdf_blob out]) w1)))
      | Throw e => (Throw e, w1)
      end.
Proof.
  intros Hparse Hexport Hfetch Hdecode Hpages. run_compose.
  rewrite Hparse. simpl. rewrite Hexport. simpl. rewrite Hfetch. simpl.
  rewrite Hdecode. simpl. unfold getPages, getSize, drawImage. simpl.
  rewrite Hpages. simpl. unfold signed_document, bottom_right. simpl.
  destruct (PDFDocument_save _); reflexivity.
Qed.


End Properties.

(** * Further properties of the handlers and of the event loop *)

Section Reachable.
Context {libs : Libs}.

Ltac unfold_handlers :=
  unfold exec, processPdf, handleFileChange, clearSignature, fire_onload,
    reader_onload, try_catch, bind, ret, throw, read_pdfFile, sigCanvas_isEmpty,
    sigCanvas_clear, readAsArrayBuffer, console_error, setErrorMsg,
    setSignedPdfUrl, setFileName, setPdfFile, external; simpl.

Ltac unfold_compose :=
  unfold compose, embedPng, createObjectURL, defined; unfold_handlers.

Ltac in_messages :=
  unfold shown_messages; rewrite !elem_of_cons; auto 10.

(** A [try] body that completes went through every step: the bytes in the
    blob it registered are the serialisation of the parsed document with
    the decoded raster drawn on its first page. *)
Lemma compose_returns_signs (D : bytes) (w w' : World) (u : unit) :
  compose D w = (OK u, w') ->
  exists out : bytes,
    signs_to D out
    /\ objectURLs w' = objectURLs w ++ [pdf_blob out]
    /\ readers w' = readers w
    /\ sigCanvas w' = sigCanvas w.
Proof.
  destruct (PDFDocument_load D) as [doc|e0] eqn:Hparse.
  2: { unfold_compose. rewrite Hparse. simpl. discriminate. }
  destruct (trimmed_toDataURL (sigCanvas w)) as [url|e0] eqn:Hexport.
  2: { unfold_compose. rewrite Hparse. simpl. rewrite Hexport. simpl. discriminate. }
  destruct (fetch_arrayBuffer url) as [png|e0] eqn:Hfetch.
  2: { unfold_compose. rewrite Hparse. simpl. rewrite Hexport. simpl.
       rewrite Hfetch. simpl. discriminate. }
  destruct (PNG_decode png) as [dims|e0] eqn:Hdecode.
  2: { unfold_compose. rewrite Hparse. simpl. rewrite Hexport. simpl.
       rewrite Hfetch. simpl. rewrite Hdecode. simpl. discriminate. }
  destruct (doc_pages doc) as [|first others] eqn:Hpages.
  { unfold_compose. rewrite Hparse. simpl. rewrite Hexport. simpl.
    rewrite Hfetch. simpl. rewrite Hdecode. simpl.
    unfold getPages. rewrite Hpages. simpl. discriminate. }
  rewrite (compose_reaches_save D w doc url png dims first others) by assumption.
  cbv zeta. destruct (PDFDocument_save _) as [out|e0] eqn:Hsave; [|discriminate].
  intros [= _ <-]. exists out. simpl. repeat split.
  exists doc, png, dims, first, others. auto.
Qed.

(** The two ways a [processPdf] call can end. *)
Lemma processPdf_outcomes (w : World) :
  let w' := exec processPdf w in
  readers w' = readers w /\ sigCanvas w' = sigCanvas w
  /\ ((exists msg : string,
         msg <> "" /\ (msg ∈ shown_messages \/ pdfFile (app w) = None)
         /\ app w' = set_errorMsg msg (app w)
         /\ objectURLs w' = objectURLs w)
      \/ (exists D out : bytes,
            pdfFile (app w) = Some D /\ pad_isEmpty (sigCanvas w) = false
            /\ signs_to D out
            /\ objectURLs w' = objectURLs w ++ [pdf_blob out]
            /\ app w' = {| pdfFile := pdfFile (app w); fileName := fileName (app w);
                           signedPdfUrl := Some (object_url (length (objectURLs w)));
                           errorMsg := "" |})).
Proof.
  unfold_handlers.
  destruct (pdfFile (app w)) as [D|] eqn:Hdoc; simpl.
  2: { repeat split. left. exists "Please upload a PDF first.".
       unfold set_errorMsg. rewrite Hdoc. repeat split; auto; discriminate. }
  destruct (pad_isEmpty (sigCanvas w)) eqn:Hempty; simpl.
  { repeat split. left. exists "Please draw a signature first.".
    unfold set_errorMsg, shown_messages. rewrite Hdoc.
    repeat split; auto; try discriminate; try (left; in_messages). }
  destruct (compose D (log call_isEmpty w)) as [[u|e] w1] eqn:Hrun; simpl.
  - pose proof (compose_returns_sets _ _ _ _ Hrun) as Happ.
    apply compose_returns_signs in Hrun as (out & Hsigns & Hstore & Hreaders & Hpad).
    simpl in *. repeat split; auto. right. exists D, out.
    rewrite Happ, Hdoc. repeat split; auto.
  - apply compose_throws_keeps in Hrun as (Happ & Hpad & Hstore & Hreaders).
    simpl in *. repeat split; auto. left.
    exists "An error occurred while creating the PDF.".
    unfold set_errorMsg, shown_messages. rewrite Happ, Hdoc.
    repeat split; auto; try discriminate; try (left; in_messages).
Qed.

(** *** The invariant of the event loop *)

Lemma consistent_set_error (sel : list File) (a : AppState) (rs : list FileReader)
    (store : list Blob) (msg : string) :
  msg ∈ shown_messages ->
  consistent sel a rs store ->
  consistent sel (set_errorMsg msg a) rs store.
Proof.
  intros Hmsg (Hrs & Hdoc & Hnone & Hurl & _). repeat split; simpl; auto.
  - apply Hnone; assumption.
  - apply Hnone; assumption.
Qed.

(** Selecting more files keeps what was known of the earlier ones. *)
Lemma consistent_more (sel more : list File) (a : AppState) (rs : list FileReader)
    (store : list Blob) :
  consistent sel a rs store -> consistent (sel ++ more) a rs store.
Proof.
  intros (Hrs & Hdoc & Hnone & Hurl & Hmsg). repeat split; auto.
  - eapply Forall_impl; [exact Hrs|]. intros r [Hin Htype].
    split; [apply elem_of_app; auto | exact Htype].
  - intros D HD. destruct (Hdoc D HD) as (file & Hin & Hrest).
    exists file. split; [apply elem_of_app; auto | exact Hrest].
  - apply Hnone; assumption.
  - apply Hnone; assumption.
Qed.

Lemma initial_consistent : Consistent [] initial.
Proof.
  unfold Consistent, consistent. simpl. repeat split; auto; try discriminate.
  in_messages.
Qed.

(** A valid selection only starts a read. *)
Lemma start_read (w : World) (file : File) (more : list File) :
  type file = "application/pdf" ->
  exec (handleFileChange (file :: more)) w
    = log (call_readAsArrayBuffer file) (with_readers (fun rs => rs ++ [mkReader file]) w).
Proof. intros Hpdf. unfold_handlers. rewrite Hpdf. reflexivity. Qed.

(** Any other selection only sets the message. *)
Lemma reject_selection (w : World) (files : list File) :
  (forall file, files !! 0 = Some file -> type file <> "application/pdf") ->
  exec (handleFileChange files) w
    = with_app (set_errorMsg "Please upload a valid PDF file.") w.
Proof.
  intros Hnot. unfold_handlers. destruct files as [|file more]; simpl; [reflexivity|].
  destruct (String.eqb_spec (type file) "application/pdf") as [Hpdf|Hne].
  - exfalso. now apply (Hnot file).
  - reflexivity.
Qed.

(** A completed read leaves the pending list and installs its file. *)
Lemma complete_read (w : World) (i : nat) (r : FileReader) :
  readers w !! i = Some r ->
  exec (fire_onload i) w
    = {| app := {| pdfFile := Some (contents (reader_file r));
                   fileName := name (reader_file r);
                   signedPdfUrl := None; errorMsg := "" |};
         sigCanvas := sigCanvas w;
         readers := delete i (readers w);
         objectURLs := objectURLs w;
         calls := calls w |}.
Proof. intros Hi. unfold_handlers. rewrite Hi. reflexivity. Qed.

Lemma dispatch_consistent (sel : list File) (ev : Event) (w : World) :
  Consistent sel w -> Consistent (sel ++ chosen ev) (exec (dispatch ev) w).
Proof.
  intros Hw. destruct ev as [files|i|stroke| |]; simpl.
  - destruct files as [|file more].
    + rewrite reject_selection by (intros ? [=]). apply consistent_more.
      apply consistent_set_error; [in_messages | exact Hw].
    + destruct (String.eqb_spec (type file) "application/pdf") as [Hpdf|Hne].
      * rewrite start_read by assumption.
        apply (consistent_more sel [file]) in Hw.
        destruct Hw as (Hrs & Hrest). split; [|exact Hrest]. simpl.
        apply Forall_app_2; [exact Hrs|]. repeat constructor; [|exact Hpdf].
        simpl. apply elem_of_app. right. apply list_elem_of_singleton. reflexivity.
      * rewrite reject_selection by (intros ? [= <-]; exact Hne).
        apply consistent_more.
        apply consistent_set_error; [in_messages | exact Hw].
  - rewrite app_nil_r. destruct (readers w !! i) as [r|] eqn:Hi.
    + rewrite (complete_read w i r Hi).
      destruct Hw as (Hrs & _). unfold Consistent, consistent. simpl.
      destruct (Forall_lookup_1 _ _ _ _ Hrs Hi) as (Hin & Htype).
      repeat split; try discriminate.
      * now apply Forall_delete.
      * intros D [= <-]. exists (reader_file r). auto.
      * in_messages.
    + unfold exec, fire_onload. rewrite Hi. exact Hw.
  - rewrite app_nil_r. exact Hw.
  - rewrite app_nil_r. exact Hw.
  - rewrite app_nil_r.
    unfold exec. destruct (sign_disabled (app w)) eqn:Hdis; [exact Hw|].
    destruct (processPdf_outcomes w) as (Hreaders & _ & Hcases).
    unfold exec in *. unfold Consistent.
    destruct Hcases as [(msg & _ & Hmsg & Happ & Hstore) | (D & out & HD & _ & Hsigns & Hstore & Happ)].
    + rewrite Happ, Hstore, Hreaders. apply consistent_set_error; [|exact Hw].
      destruct Hmsg as [Hmsg|Hnone]; [exact Hmsg|].
      unfold sign_disabled in Hdis. rewrite Hnone in Hdis. discriminate.
    + rewrite Happ, Hstore, Hreaders.
      destruct Hw as (Hrs & Hdoc & Hnone & _ & _).
      split; [exact Hrs|]. split; [exact Hdoc|]. simpl.
      split; [intros Hno; rewrite HD in Hno; discriminate|]. split.
      * intros url [= <-]. exists (length (objectURLs w)), D, out.
        repeat split; auto. now apply list_lookup_middle.
      * in_messages.
Qed.

Lemma run_consistent (sel : list File) (events : list Event) (w : World) :
  Consistent sel w -> Consistent (sel ++ selected events) (run events w).
Proof.
  revert sel w. induction events as [|ev events IH]; intros sel w Hw.
  - unfold selected. simpl. now rewrite app_nil_r.
  - unfold selected. simpl. rewrite app_assoc.
    apply (IH (sel ++ chosen ev) (exec (dispatch ev) w)).
    now apply dispatch_consistent.
Qed.

(** *** Signing without a document *)

(** X1: with no document loaded, [processPdf] sets the ErrorState to "Please
    upload a PDF first." and returns at once: it makes no call at all, not
    even [isEmpty()], and changes nothing else. *)
Theorem processPdf_without_document (w : World)
    (Hnone : pdfFile (app w) = None) :
  processPdf w = (OK tt, with_app (set_errorMsg "Please upload a PDF first.") w)
  /\ calls (exec processPdf w) = calls w.
Proof.
  unfold_handlers. rewrite Hnone. split; reflexivity.
Qed.

(** X5: when every signing attempt runs to completion before the next event
    is handled, then in every state reachable from the first render a
    rendered download link points at a blob that is registered in the
    browser's store, has the MIME type "application/pdf" and holds the
    signed serialisation of the document that is currently stored.  That
    document is the contents of one of the files the user selected, one that
    reported "application/pdf", and the suggested filename is "signed_"
    followed by the name of that same file. *)
Theorem reachable_download_is_current_document (events : list Event)
    (href suggested : string) :
  let w := run events initial in
  download_link (render (app w)) = Some (href, suggested) ->
  exists (i : nat) (file : File) (out : bytes),
    href = object_url i
    /\ objectURLs w !! i = Some {| blob_parts := out; blob_type := "application/pdf" |}
    /\ file ∈ selected events
    /\ type file = "application/pdf"
    /\ pdfFile (app w) = Some (contents file)
    /\ suggested = "signed_" +:+ name file
    /\ signs_to (contents file) out.
Proof.
  destruct (run_consistent [] events initial initial_consistent)
    as (_ & Hdoc & _ & Hurl & _).
  simpl in Hdoc, Hurl. simpl. unfold render. simpl.
  destruct (signedPdfUrl (app (run events initial))) as [url|] eqn:Hsigned; simpl;
    [|discriminate].
  destruct (truthy_string url); simpl; [|discriminate].
  intros [= <- <-].
  destruct (Hurl url eq_refl) as (i & D & out & -> & Hblob & HD & Hsigns).
  destruct (Hdoc D HD) as (file & Hin & Htype & <- & Hname).
  exists i, file, out. rewrite Hname. auto 10.
Qed.

(** *** What [processPdf] leaves alone *)

(** X6: [processPdf] never clears or changes the drawing surface, never
    cancels a pending read and never removes a registered blob: the blob
    store afterwards extends the one before. *)
Theorem processPdf_keeps_pad_reads_blobs (w : World) :
  let w' := exec processPdf w in
  sigCanvas w' = sigCanvas w
  /\ readers w' = readers w
  /\ objectURLs w `prefix_of` objectURLs w'.
Proof.
  destruct (processPdf_outcomes w) as (Hreaders & Hpad & Hcases). simpl.
  split; [exact Hpad|]. split; [exact Hreaders|].
  destruct Hcases as [(msg & _ & _ & _ & Hstore) | (D & out & _ & _ & _ & Hstore & _)];
    rewrite Hstore.
  - reflexivity.
  - now apply prefix_app_r.
Qed.

(** *** How the handlers compose *)



(** X8: when two valid files are selected one after the other and the read
    of the second completes before the read of the first, the component
    ends up holding the first file: the document and the filename are
    those of the read that completed last, not of the file selected last. *)
Theorem last_completed_read_wins (w : World) (A B : File) (moreA moreB : list File)
    (HA : type A = "application/pdf")
    (HB : type B = "application/pdf") :
  let n := length (readers w) in
  let w' := run [ FileInputChange (A :: moreA); FileInputChange (B :: moreB);
                  FileReaderLoad (S n); FileReaderLoad n ] w in
  app w' = {| pdfFile := Some (contents A); fileName := name A;
              signedPdfUrl := None; errorMsg := "" |}
  /\ readers w' = readers w.
Proof.
  intros n w'. subst w'. unfold run. simpl.
  rewrite (start_read w A moreA HA).
  rewrite (start_read _ B moreB HB).
  assert (Hn : S n = length (readers w ++ [mkReader A]))
    by (rewrite length_app; simpl; subst n; lia).
  rewrite (complete_read _ (S n) (mkReader B))
    by (simpl; now apply list_lookup_middle).
  simpl. rewrite Hn, delete_middle, app_nil_r.
  rewrite (complete_read _ n (mkReader A))
    by (simpl; now apply list_lookup_middle).
  simpl. split; [reflexivity|].
  subst n. now rewrite delete_middle, app_nil_r.
Qed.

End Reachable.

(** * Signing interleaved with other events *)

Section Sessions.
Context {libs : Libs}.

Ltac unfold_segments :=
  unfold processPdf_begin, processPdf_resume, continue, suspend, awaited,
    createObjectURL, defined, exec, try_catch, bind, ret, throw, read_pdfFile,
    sigCanvas_isEmpty, console_error, setErrorMsg, setSignedPdfUrl, external;
  simpl.

Ltac in_shown :=
  unfold shown_messages; rewrite !elem_of_cons; auto 10.

(** The three ways the first segment ends. *)
Lemma begin_outcomes (w : World) :
  (pdfFile (app w) = None
   /\ processPdf_begin w
      = (OK Finished, with_app (set_errorMsg "Please upload a PDF first.") w))
  \/ (exists D : bytes,
        pdfFile (app w) = Some D /\ pad_isEmpty (sigCanvas w) = true
        /\ processPdf_begin w
           = (OK Finished,
              log call_isEmpty
                (with_app (set_errorMsg "Please draw a signature first.") w)))
  \/ (exists D : bytes,
        pdfFile (app w) = Some D /\ pad_isEmpty (sigCanvas w) = false
        /\ processPdf_begin w
           = (OK (Suspended (AwaitLoad D)), log (call_load D) (log call_isEmpty w))).
Proof.
  unfold_segments. destruct (pdfFile (app w)) as [D|] eqn:HD; simpl.
  - destruct (pad_isEmpty (sigCanvas w)) eqn:Hempty; simpl.
    + right. left. exists D. auto.
    + right. right. exists D. auto.
  - left. auto.
Qed.

(** The three ways a later segment ends: in the [catch], at the next
    [await], or, from the last [await], with a new download handle. *)
Lemma resume_outcomes (task : Task) (w : World) :
  exists (p : Progress) (w' : World),
    processPdf_resume task w = (OK p, w')
    /\ readers w' = readers w /\ sigCanvas w' = sigCanvas w
    /\ ((p = Finished
         /\ app w' = set_errorMsg "An error occurred while creating the PDF." (app w)
         /\ objectURLs w' = objectURLs w)
        \/ (exists task', p = Suspended task' /\ app w' = app w
              /\ objectURLs w' = objectURLs w
              /\ (forall sel, task_sound sel task -> task_sound sel task'))
        \/ (exists (signed : PDFDocument) (out : bytes),
              task = AwaitSave signed /\ p = Finished
              /\ PDFDocument_save signed = OK out
              /\ objectURLs w' = objectURLs w ++ [pdf_blob out]
              /\ app w' = {| pdfFile := pdfFile (app w); fileName := fileName (app w);
                             signedPdfUrl := Some (object_url (length (objectURLs w)));
                             errorMsg := "" |})).
Proof.
  destruct task as [D|doc url|doc png|signed]; unfold_segments.
  - destruct (PDFDocument_load D) as [doc|e] eqn:Hparse; simpl.
    + destruct (trimmed_toDataURL (sigCanvas w)) as [url|e] eqn:Hexport; simpl.
      * eexists _, _. split; [reflexivity|]. simpl. split; [reflexivity|].
        split; [reflexivity|].
        right. left. eexists. repeat split. intros sel Hfrom. exists D. auto.
      * eexists _, _. split; [reflexivity|]. simpl. split; [reflexivity|].
      split; [reflexivity|]. left. auto.
    + eexists _, _. split; [reflexivity|]. simpl. split; [reflexivity|].
      split; [reflexivity|]. left. auto.
  - destruct (fetch_arrayBuffer url) as [png|e] eqn:Hfetch; simpl.
    + eexists _, _. split; [reflexivity|]. simpl. split; [reflexivity|].
        split; [reflexivity|].
      right. left. eexists. repeat split. auto.
    + eexists _, _. split; [reflexivity|]. simpl. split; [reflexivity|].
      split; [reflexivity|]. left. auto.
  - destruct (PNG_decode png) as [dims|e] eqn:Hdecode; simpl.
    + unfold getPages, getSize. simpl.
      destruct (doc_pages doc) as [|first others] eqn:Hpages; simpl.
      * eexists _, _. split; [reflexivity|]. simpl. split; [reflexivity|].
      split; [reflexivity|]. left. auto.
      * eexists _, _. split; [reflexivity|]. simpl. split; [reflexivity|].
        split; [reflexivity|].
        right. left. eexists. repeat split.
        intros sel (D & Hfrom & Hparse). exists D, doc, png, dims, first, others.
        repeat split; auto.
    + eexists _, _. split; [reflexivity|]. simpl. split; [reflexivity|].
      split; [reflexivity|]. left. auto.
  - destruct (PDFDocument_save signed) as [out|e] eqn:Hsave; simpl.
    + eexists _, _. split; [reflexivity|]. simpl. split; [reflexivity|].
        split; [reflexivity|].
      right. right. exists signed, out. auto.
    + eexists _, _. split; [reflexivity|]. simpl. split; [reflexivity|].
      split; [reflexivity|]. left. auto.
Qed.

(** *** The invariant of sessions *)

Lemma sound_error (sel : list File) (s : Session) (w' : World) (tasks : list Task)
    (msg : string) :
  sound sel s ->
  msg ∈ shown_messages ->
  app w' = set_errorMsg msg (app (world s)) ->
  readers w' = readers (world s) ->
  objectURLs w' = objectURLs (world s) ->
  (pdfFile (app (world s)) = None -> tasks = []) ->
  Forall (task_sound sel) tasks ->
  sound sel {| world := w'; signing := tasks |}.
Proof.
  intros (Hrs & Hdoc & Hnone & Hurl & _ & _) Hmsg Happ Hreaders Hstore Hempty Htasks.
  unfold sound. simpl. rewrite Happ, Hreaders, Hstore. simpl.
  repeat split; auto; now apply Hnone.
Qed.

Lemma sound_same (sel : list File) (s : Session) (w' : World) (tasks : list Task) :
  sound sel s ->
  app w' = app (world s) ->
  readers w' = readers (world s) ->
  objectURLs w' = objectURLs (world s) ->
  (pdfFile (app (world s)) = None -> tasks = []) ->
  Forall (task_sound sel) tasks ->
  sound sel {| world := w'; signing := tasks |}.
Proof.
  intros (Hrs & Hdoc & Hnone & Hurl & Hmsg & _) Happ Hreaders Hstore Hempty Htasks.
  unfold sound. simpl. rewrite Happ, Hreaders, Hstore.
  repeat split; auto; now apply Hnone.
Qed.

Lemma from_pdf_file_more (sel more : list File) (D : bytes) :
  from_pdf_file sel D -> from_pdf_file (sel ++ more) D.
Proof.
  intros (file & Hin & Hrest). exists file.
  split; [apply elem_of_app; auto | exact Hrest].
Qed.

Lemma task_sound_more (sel more : list File) (task : Task) :
  task_sound sel task -> task_sound (sel ++ more) task.
Proof.
  destruct task as [D|doc url|doc png|signed]; simpl.
  - apply from_pdf_file_more.
  - intros (D & Hfrom & Hparse). exists D. auto using from_pdf_file_more.
  - intros (D & Hfrom & Hparse). exists D. auto using from_pdf_file_more.
  - intros (D & doc & png & dims & first & others & Hfrom & Hrest).
    exists D, doc, png, dims, first, others. auto using from_pdf_file_more.
Qed.

(** Selecting more files keeps what was known of the earlier ones. *)
Lemma sound_more (sel more : list File) (s : Session) :
  sound sel s -> sound (sel ++ more) s.
Proof.
  intros (Hrs & Hdoc & Hnone & Hurl & Hmsg & Htasks). repeat split; auto.
  - eapply Forall_impl; [exact Hrs|]. intros r [Hin Htype].
    split; [apply elem_of_app; auto | exact Htype].
  - intros D HD. destruct (Hdoc D HD) as (file & Hin & Hrest).
    exists file. split; [apply elem_of_app; auto | exact Hrest].
  - apply Hnone; assumption.
  - apply Hnone; assumption.
  - apply Hnone; assumption.
  - intros url Hsigned. destruct (Hurl url Hsigned) as (i & D & out & ? & ? & Hfrom & ?).
    exists i, D, out. auto using from_pdf_file_more.
  - eapply Forall_impl; [exact Htasks|]. intros task. apply task_sound_more.
Qed.

Lemma opening_sound : sound [] opening.
Proof.
  unfold sound. simpl. repeat split; auto; try discriminate. in_shown.
Qed.

Lemma turn_sound (sel : list File) (t : Turn) (s : Session) :
  sound sel s -> sound (sel ++ chosen_in t) (turn t s).
Proof.
  intros Hs. pose proof Hs as (Hrs & Hdoc & Hnone & Hurl & Hmsg & Htasks).
  assert (Hidle : pdfFile (app (world s)) = None -> signing s = [])
    by (intros Hno; now apply Hnone).
  destruct t as [ev|i].
  - destruct ev as [files|i|stroke| |]; simpl.
    + destruct files as [|file more].
      * rewrite reject_selection by (intros ? [=]). apply sound_more.
        apply (sound_error sel s _ _ "Please upload a valid PDF file."); auto. in_shown.
      * destruct (String.eqb_spec (type file) "application/pdf") as [Hpdf|Hne].
        -- rewrite start_read by assumption.
           apply (sound_more sel [file]) in Hs.
           destruct Hs as (Hrs' & Hdoc' & Hnone' & Hurl' & Hmsg' & Htasks').
           unfold sound. simpl. repeat split; auto; try (now apply Hnone').
           apply Forall_app_2; [exact Hrs'|]. repeat constructor; [|exact Hpdf].
           simpl. apply elem_of_app. right. apply list_elem_of_singleton. reflexivity.
        -- rewrite reject_selection by (intros ? [= <-]; exact Hne). apply sound_more.
           apply (sound_error sel s _ _ "Please upload a valid PDF file."); auto. in_shown.
    + rewrite app_nil_r. destruct (readers (world s) !! i) as [r|] eqn:Hi.
      * rewrite (complete_read _ i r Hi). unfold sound. simpl.
        destruct (Forall_lookup_1 _ _ _ _ Hrs Hi) as (Hin & Htype).
        repeat split; try discriminate; auto.
        -- now apply Forall_delete.
        -- intros D [= <-]. exists (reader_file r). auto.
        -- in_shown.
      * unfold exec, fire_onload. rewrite Hi. now destruct s.
    + rewrite app_nil_r. now apply (sound_same sel s).
    + rewrite app_nil_r. now apply (sound_same sel s).
    + rewrite app_nil_r.
      destruct (sign_disabled (app (world s))) eqn:Hdis; [exact Hs|].
      destruct (begin_outcomes (world s))
        as [(Hno & _) | [(D & HD & _ & ->) | (D & HD & _ & ->)]].
      * unfold sign_disabled in Hdis. rewrite Hno in Hdis. discriminate.
      * apply (sound_error sel s _ _ "Please draw a signature first."); auto. in_shown.
      * apply (sound_same sel s); auto.
        -- intros Hno. rewrite HD in Hno. discriminate.
        -- apply Forall_app_2; [exact Htasks|]. repeat constructor.
           destruct (Hdoc D HD) as (file & Hin & Htype & Hbytes & _). now exists file.
  - simpl. rewrite app_nil_r.
    destruct (signing s !! i) as [task|] eqn:Hi; [|exact Hs].
    assert (Hbusy : pdfFile (app (world s)) <> None).
    { intros Hno. rewrite (Hidle Hno) in Hi. discriminate. }
    pose proof (Forall_lookup_1 _ _ _ _ Htasks Hi) as Htask.
    destruct (resume_outcomes task (world s))
      as (p & w' & -> & Hreaders & _ & Hcases). unfold settle.
    destruct Hcases
      as [(-> & Happ & Hstore)
         | [(task' & -> & Happ & Hstore & Hnext)
           | (signed & out & -> & -> & Hsave & Hstore & Happ)]].
    + apply (sound_error sel s _ _ "An error occurred while creating the PDF."); auto.
      * in_shown.
      * intros Hno. contradiction.
      * now apply Forall_delete.
    + apply (sound_same sel s); auto.
      * intros Hno. contradiction.
      * apply Forall_insert; auto.
    + destruct Htask as (D & doc & png & dims & first & others
                         & Hfrom & Hparse & Hdecode & Hpages & ->).
      unfold sound. simpl. rewrite Happ, Hreaders, Hstore. simpl.
      repeat split; auto; try contradiction.
      * intros url [= <-]. exists (length (objectURLs (world s))), D, out.
        repeat split; auto.
        -- now apply list_lookup_middle.
        -- exists doc, png, dims, first, others. auto.
      * in_shown.
      * now apply Forall_delete.
Qed.

Lemma interleave_sound (sel : list File) (turns : list Turn) (s : Session) :
  sound sel s -> sound (sel ++ selections turns) (interleave turns s).
Proof.
  revert sel s. induction turns as [|t turns IH]; intros sel s Hs.
  - unfold selections. simpl. now rewrite app_nil_r.
  - unfold selections. simpl. rewrite app_assoc.
    apply (IH (sel ++ chosen_in t) (turn t s)). now apply turn_sound.
Qed.

(** *** Signing without interleaving *)



#[local] Arguments turn : simpl never.



(** *** Signing with a read completing in between *)


(** *** What holds in every interleaving *)

(** X2: in every state reachable from the first render, with signing
    attempts interleaved with other events in any way, the ErrorState is
    empty or one of the three messages for an invalid file, an empty
    signature and a failed composition.  "Please upload a PDF first." is
    never shown: the button that runs [processPdf] is disabled while no
    document is loaded. *)
Theorem interleaved_messages (turns : list Turn) :
  let a := app (world (interleave turns opening)) in
  errorMsg a ∈ shown_messages
  /\ error_banner (render a) <> Some "Please upload a PDF first.".
Proof.
  destruct (interleave_sound [] turns opening opening_sound) as (_ & _ & _ & _ & Hmsg & _).
  simpl. split; [exact Hmsg|].
  unfold render, shown_messages in *. simpl.
  rewrite !elem_of_cons, elem_of_nil in Hmsg.
  destruct Hmsg as [-> | [-> | [-> | [-> | []]]]]; simpl; discriminate.
Qed.

(** X4: in every such state the stored document is the full contents of
    one of the files the user selected, one that reported the MIME type
    "application/pdf", and the filename is the name of that same file; while
    no document is stored, the filename label and the download link are not
    rendered, the "Sign PDF" button is disabled and no signing attempt is in
    flight. *)
Theorem interleaved_document_from_pdf_file (turns : list Turn) :
  let s := interleave turns opening in
  let a := app (world s) in
  (forall D : bytes, pdfFile a = Some D ->
     exists file : File,
       file ∈ selections turns
       /\ type file = "application/pdf" /\ contents file = D /\ fileName a = name file)
  /\ (pdfFile a = None ->
       selected_label (render a) = None
       /\ download_link (render a) = None
       /\ sign_button_disabled (render a) = true
       /\ signing s = []).
Proof.
  destruct (interleave_sound [] turns opening opening_sound) as (_ & Hdoc & Hnone & _).
  simpl in Hdoc. simpl. split.
  - intros D HD. destruct (Hdoc D HD) as (file & Hin & Htype & Hbytes & Hname).
    exists file. auto.
  - intros Hno. destruct (Hnone Hno) as (Hname & Hurl & Hidle).
    unfold render. simpl. rewrite Hname, Hurl, Hno. auto.
Qed.

(** X13: in every such state a rendered download link points at a blob that
    is registered in the browser's store, has the MIME type
    "application/pdf" and holds the signed serialisation of the contents of
    one of the files the user selected, one that reported the MIME type
    "application/pdf"; its suggested filename is "signed_" followed by the
    current filename. *)
Theorem interleaved_download_is_signed_pdf (turns : list Turn)
    (href suggested : string) :
  let w := world (interleave turns opening) in
  download_link (render (app w)) = Some (href, suggested) ->
  exists (i : nat) (file : File) (out : bytes),
    href = object_url i
    /\ objectURLs w !! i = Some {| blob_parts := out; blob_type := "application/pdf" |}
    /\ file ∈ selections turns
    /\ type file = "application/pdf"
    /\ signs_to (contents file) out
    /\ suggested = "signed_" +:+ fileName (app w).
Proof.
  destruct (interleave_sound [] turns opening opening_sound) as (_ & _ & _ & Hurl & _).
  simpl in Hurl. simpl. unfold render. simpl.
  destruct (signedPdfUrl (app (world (interleave turns opening)))) as [url|] eqn:Hsigned;
    simpl; [|discriminate].
  destruct (truthy_string url); simpl; [|discriminate].
  intros [= <- <-].
  destruct (Hurl url eq_refl)
    as (i & D & out & -> & Hblob & (file & Hin & Htype & <-) & Hsigns).
  exists i, file, out. auto 10.
Qed.

(** X3: no handler and no segment of [processPdf] ever unloads a document:
    once the "Sign PDF" button is enabled it stays enabled, whatever
    happens next. *)
Theorem document_stays_loaded (turns : list Turn) (s : Session)
    (Hloaded : sign_button_disabled (render (app (world s))) = false) :
  sign_button_disabled (render (app (world (interleave turns s)))) = false.
Proof.
  revert s Hloaded. induction turns as [|t turns IH]; intros s Hloaded; [exact Hloaded|].
  apply (IH (turn t s)). clear IH.
  unfold render in *. simpl in *.
  destruct (pdfFile (app (world s))) as [D|] eqn:HD; [clear Hloaded | discriminate].
  unfold turn. destruct t as [ev|i].
  - destruct ev as [files|i|stroke| |]; simpl.
    + destruct files as [|file more].
      * rewrite reject_selection by (intros ? [=]). simpl. now rewrite HD.
      * destruct (String.eqb_spec (type file) "application/pdf") as [Hpdf|Hne].
        -- rewrite start_read by assumption. simpl. now rewrite HD.
        -- rewrite reject_selection by (intros ? [= <-]; exact Hne). simpl.
           now rewrite HD.
    + destruct (readers (world s) !! i) as [r|] eqn:Hi.
      * rewrite (complete_read _ i r Hi). reflexivity.
      * unfold exec, fire_onload. rewrite Hi. simpl. now rewrite HD.
    + unfold exec. simpl. now rewrite HD.
    + unfold exec, clearSignature, sigCanvas_clear. simpl. now rewrite HD.
    + destruct (sign_disabled (app (world s))); [now rewrite HD|].
      destruct (begin_outcomes (world s))
        as [(_ & ->) | [(D' & _ & _ & ->) | (D' & _ & _ & ->)]];
        simpl; now rewrite HD.
  - destruct (signing s !! i) as [task|]; [|now rewrite HD].
    destruct (resume_outcomes task (world s)) as (p & w' & -> & _ & _ & Hcases).
    unfold settle.
    destruct Hcases
      as [(-> & Happ & _)
         | [(task' & -> & Happ & _) | (signed & out & _ & -> & _ & _ & Happ)]];
      simpl; rewrite Happ; simpl; now rewrite HD.
Qed.

(** X9: a shown error message disappears only when a pending read completes
    or when a signing attempt comes back from [save()] and succeeds;
    selecting a file, drawing, clearing the pad, clicking "Sign PDF" and a
    failing attempt all leave a message on display. *)
Theorem error_cleared_only_by_load_or_sign (t : Turn) (s : Session)
    (Hshown : error_banner (render (app (world s))) <> None)
    (Hcleared : error_banner (render (app (world (turn t s)))) = None) :
  (exists (i : nat) (r : FileReader),
     t = Handle (FileReaderLoad i) /\ readers (world s) !! i = Some r)
  \/ (exists (i : nat) (signed : PDFDocument),
        t = Resume i /\ signing s !! i = Some (AwaitSave signed)
        /\ signedPdfUrl (app (world (turn t s)))
           = Some (object_url (length (objectURLs (world s))))).
Proof.
  assert (Hkeep : forall msg, msg <> "" ->
            error_banner (render (set_errorMsg msg (app (world s)))) <> None).
  { intros [|c msg] Hne; [congruence | discriminate]. }
  unfold turn in *. destruct t as [ev|i].
  - destruct ev as [files|i|stroke| |]; simpl in *.
    + exfalso. destruct files as [|file more].
      * rewrite reject_selection in Hcleared by (intros ? [=]).
        now apply (Hkeep "Please upload a valid PDF file.").
      * destruct (String.eqb_spec (type file) "application/pdf") as [Hpdf|Hne].
        -- rewrite start_read in Hcleared by assumption. now apply Hshown.
        -- rewrite reject_selection in Hcleared by (intros ? [= <-]; exact Hne).
           now apply (Hkeep "Please upload a valid PDF file.").
    + destruct (readers (world s) !! i) as [r|] eqn:Hi.
      * left. exists i, r. auto.
      * exfalso. unfold exec, fire_onload in Hcleared. rewrite Hi in Hcleared.
        now apply Hshown.
    + exfalso. now apply Hshown.
    + exfalso. now apply Hshown.
    + exfalso. destruct (sign_disabled (app (world s))); [now apply Hshown|].
      destruct (begin_outcomes (world s))
        as [(_ & Hrun) | [(D & _ & _ & Hrun) | (D & _ & _ & Hrun)]];
        rewrite Hrun in Hcleared; simpl in Hcleared.
      * now apply (Hkeep "Please upload a PDF first.").
      * now apply (Hkeep "Please draw a signature first.").
      * now apply Hshown.
  - destruct (signing s !! i) as [task|] eqn:Hi; [|exfalso; now apply Hshown].
    destruct (resume_outcomes task (world s)) as (p & w' & Hrun & _ & _ & Hcases).
    rewrite Hrun in *. unfold settle in *.
    destruct Hcases
      as [(-> & Happ & _)
         | [(task' & -> & Happ & _) | (signed & out & -> & -> & _ & _ & Happ)]];
      simpl in *.
    + exfalso. rewrite Happ in Hcleared.
      now apply (Hkeep "An error occurred while creating the PDF.").
    + exfalso. rewrite Happ in Hcleared. now apply Hshown.
    + right. exists i, signed. rewrite Happ. auto.
Qed.

(** X10: "Clear" followed by "Sign PDF" with a document loaded is always
    rejected with "Please draw a signature first.", whatever had been drawn
    before: the pad is wiped, no codec call is made and no attempt is left
    in flight. *)
Theorem clear_then_sign_is_rejected (s : Session) (D : bytes)
    (Hdoc : pdfFile (app (world s)) = Some D) :
  let s' := interleave [Handle ClickClear; Handle ClickSignPdf] s in
  app (world s') = set_errorMsg "Please draw a signature first." (app (world s))
  /\ calls (world s') = calls (world s) ++ [call_clear; call_isEmpty]
  /\ pad_data (sigCanvas (world s')) = []
  /\ objectURLs (world s') = objectURLs (world s)
  /\ signing s' = signing s.
Proof.
  destruct s as [w tasks]. unfold interleave, turn. simpl in *.
  unfold sign_disabled. simpl. rewrite Hdoc. simpl.
  unfold_segments. rewrite Hdoc. simpl.
  rewrite <- app_assoc. auto.
Qed.

End Sessions.

(** * Signing attempts, segment by segment, with a library that may throw *)

Section Attempts.
Context {libs : Libs} {faults : Faults}.

Ltac unfold_throwing :=
  unfold processPdf_resume_throwing, continue_throwing, processPdf_begin,
    processPdf_resume, continue, suspend, awaited, unless,
    createObjectURL, defined, exec, try_catch, bind, ret, throw, read_pdfFile,
    sigCanvas_isEmpty, console_error, setErrorMsg, setSignedPdfUrl, external;
  simpl.

(** Outside the segment after [embedPng] there is no page operation. *)
Lemma resume_throwing_elsewhere (task : Task) (w : World) :
  (forall doc png, task <> AwaitEmbed doc png) ->
  processPdf_resume_throwing task w = processPdf_resume task w.
Proof.
  intros Hother. destruct task as [D|doc url|doc png|signed]; try reflexivity.
  now destruct (Hother doc png).
Qed.

(** A failing step makes the segment throw, before any state cell is
    written and before any blob is registered. *)
Lemma fails_throws (task : Task) (w : World) (e : JsError) :
  SegmentFails task (sigCanvas w) e ->
  exists w', continue_throwing task w = (Throw e, w')
    /\ app w' = app w /\ objectURLs w' = objectURLs w
    /\ readers w' = readers w /\ sigCanvas w' = sigCanvas w.
Proof.
  intros Hfail. inversion Hfail; subst;
    unfold raster, registered, bottom_right in *; unfold_throwing;
    repeat match goal with
      | H : PDFDocument_load _ = _ |- _ => rewrite H; clear H; simpl
      | H : trimmed_toDataURL _ = _ |- _ => rewrite H; clear H; simpl
      | H : fetch_arrayBuffer _ = _ |- _ => rewrite H; clear H; simpl
      | H : PNG_decode _ = _ |- _ => rewrite H; clear H; simpl
      | H : getPages_throws _ = _ |- _ => rewrite H; clear H; simpl
      | H : doc_pages ?d = _ |- _ =>
          unfold getPages, getSize; destruct d; simpl in *; subst; simpl
      | H : getSize_throws _ _ = _ |- _ => rewrite H; clear H; simpl
      | H : drawImage_throws _ _ _ _ = _ |- _ => rewrite H; clear H; simpl
      | H : PDFDocument_save _ = _ |- _ => rewrite H; clear H; simpl
      end;
    eauto 10.
Qed.


(** With page operations that never throw, the segments are those of
    [processPdf_resume]. *)
Lemma resume_throwing_no_faults (task : Task) (w : World) :
  processPdf_resume_throwing (faults := no_faults) task w = processPdf_resume task w.
Proof.
  destruct task as [D|doc url|doc png|signed]; try reflexivity.
  destruct doc as [pages images]. unfold_throwing.
  destruct (PNG_decode png) as [dims|e]; simpl; [|reflexivity].
  unfold getPages, getSize. simpl. destruct pages as [|first others]; reflexivity.
Qed.



(** C3: whichever step of a resumed segment fails (parse, raster export,
    fetch, PNG embed, reading the page list, a missing first page, reading
    its size, the draw, serialise), [processPdf] catches what was thrown,
    logs it to the console, sets the ErrorState to "An error occurred while
    creating the PDF." and ends the attempt there: no other state cell is
    written, the SignedResult stays as it is, and no blob handle is
    created. *)
Theorem processPdf_collapses_failures (task : Task) (w : World) (e : JsError)
    (Hfail : SegmentFails task (sigCanvas w) e) :
  exists w' : World,
    processPdf_resume_throwing task w = (OK Finished, w')
    /\ app w' = set_errorMsg "An error occurred while creating the PDF." (app w)
    /\ objectURLs w' = objectURLs w
    /\ readers w' = readers w
    /\ sigCanvas w' = sigCanvas w
    /\ last (calls w') = Some (call_console_error e).
Proof.
  destruct (fails_throws task w e Hfail) as (w1 & Hrun & Happ & Hstore & Hreaders & Hpad).
  unfold processPdf_resume_throwing, try_catch. rewrite Hrun.
  unfold bind, console_error, setErrorMsg, ret. simpl.
  eexists. split; [reflexivity|]. simpl.
  rewrite Happ, Hstore, Hreaders, Hpad, last_snoc. auto 10.
Qed.


End Attempts.

(** * The properties at concrete inputs *)

#[local] Existing Instance Fake.libs.




(** A loaded document and a cleared pad. *)
Lemma processPdf_rejects_empty_signature_witness :
  pad_isEmpty (sigCanvas (Fake.unsigned Fake.letter_pdf)) = true
  /\ errorMsg (app (exec processPdf (Fake.unsigned Fake.letter_pdf)))
     = "Please draw a signature first."
  /\ calls (exec processPdf (Fake.unsigned Fake.letter_pdf)) = [call_isEmpty].
Proof.
  destruct (processPdf_rejects_empty_signature (Fake.unsigned Fake.letter_pdf)
              Fake.letter_pdf eq_refl eq_refl) as (Hrun & _).
  unfold exec. rewrite Hrun. repeat split.
Defined.

(** Selecting a PDF again after a successful sign. *)
Lemma select_valid_replaces_document_witness :
  type Fake.contract = "application/pdf"
  /\ signedPdfUrl (app Fake.signed) = Some "blob:0"
  /\ app (run [FileInputChange [Fake.contract]; FileReaderLoad 0] Fake.signed)
     = {| pdfFile := Some Fake.letter_pdf; fileName := "contract.pdf";
          signedPdfUrl := None; errorMsg := "" |}.
Proof.
  destruct (select_valid_replaces_document Fake.signed Fake.contract [] eq_refl)
    as (Hstart & Hload).
  split; [reflexivity|]. split; [reflexivity|].
  apply (Hload (exec (handleFileChange [Fake.contract]) Fake.signed) 0).
  reflexivity.
Defined.

(** Selecting an image while a document is loaded. *)
Lemma select_invalid_keeps_document_witness :
  type Fake.photo <> "application/pdf"
  /\ pdfFile (app (exec (handleFileChange [Fake.photo]) (Fake.ready Fake.letter_pdf)))
     = Some Fake.letter_pdf
  /\ errorMsg (app (exec (handleFileChange [Fake.photo]) (Fake.ready Fake.letter_pdf)))
     = "Please upload a valid PDF file.".
Proof.
  assert (Hnot : type Fake.photo <> "application/pdf") by discriminate.
  split; [exact Hnot|].
  destruct (select_invalid_keeps_document (Fake.ready Fake.letter_pdf) Fake.photo []
              Hnot) as (Hfile & _ & Hmsg).
  split; [exact Hfile | exact Hmsg].
Defined.


(** Clicking through to [processPdf] on the first render. *)
Lemma processPdf_without_document_witness :
  pdfFile (app initial) = None
  /\ errorMsg (app (exec processPdf initial)) = "Please upload a PDF first."
  /\ calls (exec processPdf initial) = [].
Proof.
  destruct (processPdf_without_document initial eq_refl) as (Hrun & Hcalls).
  split; [reflexivity|]. split; [|exact Hcalls].
  unfold exec. rewrite Hrun. reflexivity.
Defined.

(** The download offered after upload, draw and sign. *)
Lemma reachable_download_is_current_document_witness :
  download_link (render (app Fake.signed)) = Some ("blob:0", "signed_contract.pdf")
  /\ exists (i : nat) (file : File) (out : bytes),
       "blob:0" = object_url i
       /\ objectURLs Fake.signed !! i = Some (pdf_blob out)
       /\ file ∈ [Fake.contract]
       /\ type file = "application/pdf"
       /\ pdfFile (app Fake.signed) = Some (contents file)
       /\ "signed_contract.pdf" = "signed_" +:+ name file
       /\ signs_to (contents file) out.
Proof.
  split; [reflexivity|].
  apply (reachable_download_is_current_document
           [FileInputChange [Fake.contract]; FileReaderLoad 0;
            PointerStroke Fake.stroke; ClickSignPdf]
           "blob:0" "signed_contract.pdf").
  reflexivity.
Defined.


(** Two files selected on the first render, the second read first. *)
Lemma last_completed_read_wins_witness :
  app (run [ FileInputChange [Fake.contract]; FileInputChange [Fake.annex];
             FileReaderLoad 1; FileReaderLoad 0 ] initial)
    = {| pdfFile := Some Fake.letter_pdf; fileName := "contract.pdf";
         signedPdfUrl := None; errorMsg := "" |}.
Proof.
  apply (last_completed_read_wins initial Fake.contract Fake.annex [] []);
    reflexivity.
Defined.

(** A rejected file, a cleared pad and a failed attempt in flight leave the
    document loaded. *)
Lemma document_stays_loaded_witness :
  let s := {| world := Fake.ready Fake.not_a_pdf; signing := [] |} in
  sign_button_disabled (render (app (world s))) = false
  /\ sign_button_disabled
       (render (app (world (interleave
          [Handle ClickSignPdf; Handle (FileInputChange [Fake.photo]);
           Handle ClickClear; Resume 0] s)))) = false.
Proof.
  split; [reflexivity|].
  apply (document_stays_loaded
           [Handle ClickSignPdf; Handle (FileInputChange [Fake.photo]);
            Handle ClickClear; Resume 0]
           {| world := Fake.ready Fake.not_a_pdf; signing := [] |}).
  reflexivity.
Defined.


(** The download offered after upload, draw, sign and the four resumptions. *)
Lemma interleaved_download_is_signed_pdf_witness :
  let w := world (interleave
             [ Handle (FileInputChange [Fake.contract]); Handle (FileReaderLoad 0);
               Handle (PointerStroke Fake.stroke); Handle ClickSignPdf;
               Resume 0; Resume 0; Resume 0; Resume 0 ] opening) in
  download_link (render (app w)) = Some ("blob:0", "signed_contract.pdf")
  /\ exists (i : nat) (file : File) (out : bytes),
       "blob:0" = object_url i
       /\ objectURLs w !! i = Some (pdf_blob out)
       /\ file ∈ [Fake.contract]
       /\ type file = "application/pdf"
       /\ signs_to (contents file) out
       /\ "signed_contract.pdf" = "signed_" +:+ fileName (app w).
Proof.
  split; [reflexivity|].
  apply (interleaved_download_is_signed_pdf
           [ Handle (FileInputChange [Fake.contract]); Handle (FileReaderLoad 0);
             Handle (PointerStroke Fake.stroke); Handle ClickSignPdf;
             Resume 0; Resume 0; Resume 0; Resume 0 ]
           "blob:0" "signed_contract.pdf").
  reflexivity.
Defined.

(** A signing attempt comes back from [save()] and removes the message an
    earlier attempt had left. *)
Lemma error_cleared_only_by_load_or_sign_witness :
  let s := {| world := Fake.rejected_before; signing := [AwaitSave Fake.signed_letter] |} in
  error_banner (render (app (world s))) = Some "Please draw a signature first."
  /\ error_banner (render (app (world (turn (Resume 0) s)))) = None
  /\ signedPdfUrl (app (world (turn (Resume 0) s))) = Some "blob:0".
Proof.
  split; [reflexivity|]. split; [reflexivity|].
  assert (Hshown : error_banner (render (app Fake.rejected_before)) <> None)
    by discriminate.
  assert (Hcleared : error_banner (render (app (world (turn (Resume 0)
            {| world := Fake.rejected_before;
               signing := [AwaitSave Fake.signed_letter] |})))) = None)
    by reflexivity.
  destruct (error_cleared_only_by_load_or_sign (Resume 0)
              {| world := Fake.rejected_before;
                 signing := [AwaitSave Fake.signed_letter] |}
              Hshown Hcleared) as [(i & r & Hev & _) | (i & signed & _ & _ & Hurl)].
  - discriminate Hev.
  - exact Hurl.
Defined.

(** Clearing a drawn signature and signing. *)
Lemma clear_then_sign_is_rejected_witness :
  let s := {| world := Fake.ready Fake.letter_pdf; signing := [] |} in
  pdfFile (app (world s)) = Some Fake.letter_pdf
  /\ errorMsg (app (world (interleave [Handle ClickClear; Handle ClickSignPdf] s)))
     = "Please draw a signature first."
  /\ calls (world (interleave [Handle ClickClear; Handle ClickSignPdf] s))
     = [call_clear; call_isEmpty].
Proof.
  destruct (clear_then_sign_is_rejected
              {| world := Fake.ready Fake.letter_pdf; signing := [] |}
              Fake.letter_pdf eq_refl) as (Happ & Hcalls & _).
  split; [reflexivity|]. split; [|exact Hcalls].
  cbv zeta. rewrite Happ. reflexivity.
Defined.

(** A page without a media box and a rejected draw: both attempts end in the
    generic message, with no SignedResult. *)
Lemma processPdf_collapses_failures_witness :
  let task := AwaitEmbed {| doc_pages := [Fake.blank 612 792]; doc_images := [] |}
                Fake.signature_png in
  let w := Fake.ready Fake.letter_pdf in
  SegmentFails (faults := no_media_box) task (sigCanvas w)
    (LibraryError "Missing MediaBox")
  /\ app (exec (processPdf_resume_throwing (faults := no_media_box) task) w)
     = {| pdfFile := Some Fake.letter_pdf; fileName := "contract.pdf";
          signedPdfUrl := None;
          errorMsg := "An error occurred while creating the PDF." |}
  /\ errorMsg (app (exec (processPdf_resume_throwing (faults := draw_rejected) task) w))
     = "An error occurred while creating the PDF.".
Proof.
  cbv zeta.
  assert (Hsize : SegmentFails (faults := no_media_box)
            (AwaitEmbed {| doc_pages := [Fake.blank 612 792]; doc_images := [] |}
               Fake.signature_png)
            (sigCanvas (Fake.ready Fake.letter_pdf))
            (LibraryError "Missing MediaBox")).
  { eapply (page_size_fails (faults := no_media_box)); reflexivity. }
  assert (Hdraw : SegmentFails (faults := draw_rejected)
            (AwaitEmbed {| doc_pages := [Fake.blank 612 792]; doc_images := [] |}
               Fake.signature_png)
            (sigCanvas (Fake.ready Fake.letter_pdf))
            (LibraryError "drawImage failed")).
  { eapply (draw_fails (faults := draw_rejected)); reflexivity. }
  split; [exact Hsize|].
  destruct (processPdf_collapses_failures (faults := no_media_box) _ _ _ Hsize)
    as (w1 & Hrun1 & Happ1 & _).
  destruct (processPdf_collapses_failures (faults := draw_rejected) _ _ _ Hdraw)
    as (w2 & Hrun2 & Happ2 & _).
  unfold exec. rewrite Hrun1, Hrun2. simpl. rewrite Happ1, Happ2. split; reflexivity.
Defined.


